(** * jp_aj_sim: odds conversion, round distributions and the sampling engine

    A shallow embedding of [sim/odds.py], [sim/model.py] and [sim/engine.py].

    - Python [int] is [Z]; Python [float] is IEEE-754 binary64, i.e. Rocq's
      primitive [float], so that every definition evaluates bit for bit.
    - A [dict] whose iteration order matters ([sum(probs.values())] adds
      the values in insertion order) is an association list.
    - A raised exception is the [Raise] case of [result]; methods that use
      [self.rng] thread the engine through a small state-and-error monad.
    - numpy's [Generator] is not part of the repository: it is an interface
      ([BitGenerator]) with the two operations the engine calls. *)

From Stdlib Require Import ZArith List String Bool Lia Floats.
Import ListNotations.

Set Warnings "-inexact-float".

Open Scope string_scope.
Open Scope list_scope.
Open Scope Z_scope.

(** ** Exceptions and results *)

Inductive exn : Type :=
| ValueError (msg : string)
| ZeroDivisionError (msg : string)
| OverflowError (msg : string)
| IndexError (msg : string)
| KeyError (key : string).

Inductive result (A : Type) : Type :=
| Ok (a : A)
| Raise (e : exn).

Arguments Ok {A} a.
Arguments Raise {A} e.

Definition rbind {A B : Type} (r : result A) (k : A -> result B) : result B :=
  match r with
  | Ok a => k a
  | Raise e => Raise e
  end.

Fixpoint rmap {A B : Type} (f : A -> result B) (l : list A) : result (list B) :=
  match l with
  | [] => Ok []
  | x :: xs =>
      rbind (f x) (fun y => rbind (rmap f xs) (fun ys => Ok (y :: ys)))
  end.

(** ** Python numerics *)

Module Py.

(** Number of binary digits of a non-negative integer. *)
Definition bit_length (z : Z) : Z :=
  match z with
  | Zpos p => Z.pos (Pos.size p)
  | _ => 0
  end.

(** Correctly rounded quotient of two positive integers: scale the
    numerator so that the integer quotient carries at least 55 bits, keep
    a sticky bit for a non-zero remainder, and round once. *)
Definition pos_quotient (a b : Z) : float :=
  let s := bit_length b - bit_length a + 55 in
  let num := if 0 <=? s then Z.shiftl a s else a in
  let den := if 0 <=? s then b else Z.shiftl b (- s) in
  let q := num / den in
  let sticky := if num mod den =? 0 then 0 else 1 in
  SF2Prim (binary_normalize prec emax (2 * q + sticky) (- s - 1) false).

(** [a / b] on two [int]s (true division). *)
Definition int_truediv (a b : Z) : result float :=
  if b =? 0 then Raise (ZeroDivisionError "division by zero")
  else if a =? 0 then Ok (if b <? 0 then neg_zero else zero)
  else
    let q := pos_quotient (Z.abs a) (Z.abs b) in
    if is_infinity q then
      Raise (OverflowError "integer division result too large for a float")
    else Ok (if Bool.eqb (a <? 0) (b <? 0) then q else (- q)%float).

(** [sum(xs)]: the accumulator starts at the integer [0] and the values
    are added left to right, each addition rounded (the plain loop of
    CPython up to 3.11; the examples below use inputs on which a
    compensated sum returns the same double). *)
Definition sum (xs : list float) : float :=
  fold_left PrimFloat.add xs zero.

(** [d[k]] on an insertion-ordered dict. *)
Fixpoint getitem {V : Type} (d : list (string * V)) (k : string) : result V :=
  match d with
  | [] => Raise (KeyError k)
  | (k', v) :: d' => if String.eqb k' k then Ok v else getitem d' k
  end.

(** [l[i]] for a non-negative index. *)
Definition index {A : Type} (l : list A) (i : nat) : result A :=
  match nth_error l i with
  | Some a => Ok a
  | None => Raise (IndexError "list index out of range")
  end.

End Py.

(** ** numpy array functions used by the engine *)

Module Np.

(** [np.cumsum]: running sums; the first entry is the first element. *)
Fixpoint cumsum_from (acc : float) (xs : list float) : list float :=
  match xs with
  | [] => []
  | x :: xs' => let acc' := (acc + x)%float in acc' :: cumsum_from acc' xs'
  end.

Definition cumsum (xs : list float) : list float :=
  match xs with
  | [] => []
  | x :: xs' => x :: cumsum_from x xs'
  end.

(** [np.searchsorted(a, v)] with the default [side='left'], by its
    contract on a non-decreasing array: the index [i] with
    [a[i-1] < v <= a[i]], that is the first position whose entry is not
    below [v], and [len(a)] when every entry is below [v].  The engine only
    searches running sums. *)
Fixpoint searchsorted (a : list float) (v : float) : nat :=
  match a with
  | [] => O
  | x :: a' => if (x <? v)%float then S (searchsorted a' v) else O
  end.

End Np.

(** ** sim/odds.py *)

Module Odds.

Definition american_to_implied_prob (odds : Z) : result float :=
  if 0 <? odds then Py.int_truediv 100 (odds + 100)
  else Py.int_truediv (Z.abs odds) (Z.abs odds + 100).

Definition normalize_probs (probs : list (string * float))
  : result (list (string * float)) :=
  let total := Py.sum (map snd probs) in
  if (total =? 0)%float then
    Raise (ValueError "Sum of probabilities cannot be zero")
  else Ok (map (fun kv => (fst kv, (snd kv / total)%float)) probs).

End Odds.

(** ** sim/model.py *)

Module Model.

Record OddsConfig : Type := {
  joshua_moneyline : Z;
  paul_moneyline : Z;
  joshua_ko : Z;
  joshua_decision : Z;
  paul_ko : Z;
  paul_decision : Z;
  draw : Z;
  total_rounds : Z
}.

(** [OddsConfig()] with every field at its default. *)
Definition OddsConfig_default : OddsConfig :=
  {| joshua_moneyline := -1200; paul_moneyline := 800;
     joshua_ko := -390; joshua_decision := 450;
     paul_ko := 1200; paul_decision := 1300;
     draw := 2500; total_rounds := 8 |}.

Record RoundDistribution : Type := {
  joshua_ko_rounds : list float;
  paul_ko_rounds : list float
}.

(** [any(p < 0 for p in ps)] *)
Definition any_negative (ps : list float) : bool :=
  existsb (fun p => (p <? 0)%float) ps.

(** [[p / total for p in ps]]; only reached with [total > 0]. *)
Definition rescale (ps : list float) (total : float) : list float :=
  map (fun p => (p / total)%float) ps.

(** [RoundDistribution(joshua_ko_rounds=j, paul_ko_rounds=p)]: the
    dataclass constructor followed by [__post_init__]. *)
Definition RoundDistribution_init (j p : list float)
  : result RoundDistribution :=
  if negb (Nat.eqb (List.length j) 8) then
    Raise (ValueError "joshua_ko_rounds must have 8 values")
  else if negb (Nat.eqb (List.length p) 8) then
    Raise (ValueError "paul_ko_rounds must have 8 values")
  else if any_negative j then
    Raise (ValueError "joshua_ko_rounds must be non-negative")
  else if any_negative p then
    Raise (ValueError "paul_ko_rounds must be non-negative")
  else
    let joshua_sum := Py.sum j in
    let paul_sum := Py.sum p in
    let j' := if (0 <? joshua_sum)%float then rescale j joshua_sum else j in
    let p' := if (0 <? paul_sum)%float then rescale p paul_sum else p in
    Ok {| joshua_ko_rounds := j'; paul_ko_rounds := p' |}.

Record SimulationParams : Type := {
  odds : OddsConfig;
  round_dist : RoundDistribution;
  seed : Z;
  enable_draw : bool
}.

(** [params.seed = s] *)
Definition set_seed (s : Z) (p : SimulationParams) : SimulationParams :=
  {| odds := odds p; round_dist := round_dist p;
     seed := s; enable_draw := enable_draw p |}.

Record FightResult : Type := {
  sim_id : Z;
  winner : string;
  method : string;
  round : Z
}.

End Model.

Import Model.

(** ** numpy's random generator, as the engine sees it *)

(** [default_rng seed] is [np.random.default_rng(seed)], which raises on
    a seed it does not accept (numpy refuses negative integers), and
    [next_double] is one call of [Generator.random()]: a double and the
    advanced generator.  [Generator.random(n)] fills its array with [n]
    successive doubles of the same stream. *)
Class BitGenerator (G : Type) : Type := {
  default_rng : Z -> result G;
  next_double : G -> float * G
}.



Fixpoint random_array {G : Type} `{BitGenerator G} (n : nat) (g : G)
  : list float * G :=
  match n with
  | O => ([], g)
  | S n' =>
      let (u, g1) := next_double g in
      let (us, g2) := random_array n' g1 in
      (u :: us, g2)
  end.

(** ** sim/engine.py *)

Module Engine.

Record SimulationEngine (G : Type) : Type := {
  params : SimulationParams;
  rng : G;
  normalized_probs : list (string * float);
  outcomes : list string;
  cumulative_probs : list float
}.

Arguments params {G} _.
Arguments rng {G} _.
Arguments normalized_probs {G} _.
Arguments outcomes {G} _.
Arguments cumulative_probs {G} _.

(** A method body: it may read and update [self] and may raise; on an
    exception the updates made so far stay. *)
Definition M (G A : Type) : Type :=
  SimulationEngine G -> result A * SimulationEngine G.

Definition ret {G A : Type} (a : A) : M G A := fun self => (Ok a, self).

Definition bind {G A B : Type} (m : M G A) (k : A -> M G B) : M G B :=
  fun self =>
    match m self with
    | (Ok a, self') => k a self'
    | (Raise e, self') => (Raise e, self')
    end.

Definition lift {G A : Type} (r : result A) : M G A := fun self => (r, self).

Definition get_self {G : Type} : M G (SimulationEngine G) :=
  fun self => (Ok self, self).

Declare Scope engine_scope.
Delimit Scope engine_scope with engine.
Notation "x <- m ;; k" := (bind m (fun x => k))
  (at level 100, m at next level, right associativity) : engine_scope.

Section WithGenerator.

Context {G : Type} `{BitGenerator G}.

(** The body of [_compute_probabilities]: the three attributes it
    assigns, computed from [self.params]. *)
Definition _compute_probabilities (p : SimulationParams)
  : result (list (string * float) * list string * list float) :=
  let o := odds p in
  rbind (Odds.american_to_implied_prob (joshua_ko o)) (fun p_jko =>
  rbind (Odds.american_to_implied_prob (joshua_decision o)) (fun p_jdec =>
  rbind (Odds.american_to_implied_prob (paul_ko o)) (fun p_pko =>
  rbind (Odds.american_to_implied_prob (paul_decision o)) (fun p_pdec =>
  let probs := [("joshua_ko", p_jko); ("joshua_decision", p_jdec);
                ("paul_ko", p_pko); ("paul_decision", p_pdec)] in
  rbind (if enable_draw p
         then rbind (Odds.american_to_implied_prob (draw o))
                    (fun p_draw => Ok (probs ++ [("draw", p_draw)]))
         else Ok probs) (fun probs =>
  rbind (Odds.normalize_probs probs) (fun normalized =>
  let outcomes :=
    ["joshua_ko"; "joshua_decision"; "paul_ko"; "paul_decision"] in
  let outcomes :=
    if enable_draw p then outcomes ++ ["draw"] else outcomes in
  rbind (rmap (Py.getitem normalized) outcomes) (fun values =>
  Ok (normalized, outcomes, Np.cumsum values)))))))).

(** [SimulationEngine(params)] *)
Definition SimulationEngine_init (p : SimulationParams)
  : result (SimulationEngine G) :=
  rbind (default_rng (seed p)) (fun g =>
  rbind (_compute_probabilities p) (fun t =>
  let '(normalized, outs, cum) := t in
  Ok {| params := p;
        rng := g;
        normalized_probs := normalized;
        outcomes := outs;
        cumulative_probs := cum |})).

(** [reseed(seed)]: the generator is replaced first, then the stored seed;
    when [default_rng] raises, nothing is assigned. *)
Definition reseed (s : Z) : M G unit :=
  fun self =>
    match default_rng s with
    | Ok g =>
        (Ok tt,
         {| params := set_seed s (params self);
            rng := g;
            normalized_probs := normalized_probs self;
            outcomes := outcomes self;
            cumulative_probs := cumulative_probs self |})
    | Raise e => (Raise e, self)
    end.

Definition set_rng (g : G) (self : SimulationEngine G) : SimulationEngine G :=
  {| params := params self;
     rng := g;
     normalized_probs := normalized_probs self;
     outcomes := outcomes self;
     cumulative_probs := cumulative_probs self |}.

(** [self.rng.random()] *)
Definition rng_random : M G float :=
  fun self =>
    let (u, g) := next_double (rng self) in (Ok u, set_rng g self).

(** [self.rng.random(count)] *)
Definition rng_random_array (count : Z) : M G (list float) :=
  fun self =>
    if count <? 0 then
      (Raise (ValueError "negative dimensions are not allowed"), self)
    else
      let (us, g) := random_array (Z.to_nat count) (rng self) in
      (Ok us, set_rng g self).

Local Open Scope engine_scope.

Definition _sample_round (round_probs : list float) : M G Z :=
  let cum_probs := Np.cumsum round_probs in
  sample <- rng_random ;;
  let round_idx := Np.searchsorted cum_probs sample in
  ret (Z.min (Z.of_nat round_idx + 1) 8).

(** One iteration of the [for i in range(count)] loop, up to the
    [FightResult] it appends. *)
Definition simulate_one (start_id i : Z) (outcome_idx : nat)
  : M G FightResult :=
  self <- get_self ;;
  outcome <- lift (Py.index (outcomes self) outcome_idx) ;;
  let sim_id := start_id + i in
  if String.eqb outcome "joshua_ko" then
    round_num <-
      _sample_round (joshua_ko_rounds (round_dist (params self))) ;;
    ret {| sim_id := sim_id; winner := "Joshua";
           method := "KO/TKO/DQ"; round := round_num |}
  else if String.eqb outcome "joshua_decision" then
    ret {| sim_id := sim_id; winner := "Joshua";
           method := "Decision"; round := 9 |}
  else if String.eqb outcome "paul_ko" then
    round_num <-
      _sample_round (paul_ko_rounds (round_dist (params self))) ;;
    ret {| sim_id := sim_id; winner := "Paul";
           method := "KO/TKO/DQ"; round := round_num |}
  else if String.eqb outcome "paul_decision" then
    ret {| sim_id := sim_id; winner := "Paul";
           method := "Decision"; round := 9 |}
  else
    ret {| sim_id := sim_id; winner := "Draw";
           method := "Decision"; round := 9 |}.

(** The loop over [i], [outcome_indices[i]]; [results] is the list
    appended to. *)
Fixpoint simulate_loop (start_id i : Z) (outcome_indices : list nat)
  (results : list FightResult) : M G (list FightResult) :=
  match outcome_indices with
  | [] => ret results
  | outcome_idx :: rest =>
      r <- simulate_one start_id i outcome_idx ;;
      simulate_loop start_id (i + 1) rest (results ++ [r])
  end.

Definition simulate_batch (count start_id : Z) : M G (list FightResult) :=
  outcome_samples <- rng_random_array count ;;
  self <- get_self ;;
  let outcome_indices :=
    map (Np.searchsorted (cumulative_probs self)) outcome_samples in
  simulate_loop start_id 0 outcome_indices [].

(** A driver that issues the calls [simulate_batch(count, start_id)]
    of [calls] one after the other and collects what each returns. *)
Fixpoint simulate_batches (calls : list (Z * Z))
  : M G (list (list FightResult)) :=
  match calls with
  | [] => ret []
  | (count, start_id) :: rest =>
      records <- simulate_batch count start_id ;;
      others <- simulate_batches rest ;;
      ret (records :: others)
  end.

(** The states an engine constructed from [p] goes through: the
    constructed engine, and the engine after any call of
    [simulate_batch] or [reseed]. *)
Inductive reachable (p : SimulationParams) : SimulationEngine G -> Prop :=
| reachable_init (self : SimulationEngine G) :
    SimulationEngine_init p = Ok self -> reachable p self
| reachable_batch (self : SimulationEngine G) (count start_id : Z) :
    reachable p self ->
    reachable p (snd (simulate_batch count start_id self))
| reachable_reseed (self : SimulationEngine G) (s : Z) :
    reachable p self -> reachable p (snd (reseed s self)).

End WithGenerator.

(** The three precomputed attributes of an engine. *)
Definition tables {G : Type} (self : SimulationEngine G)
  : list (string * float) * list string * list float :=
  (normalized_probs self, outcomes self, cumulative_probs self).

(** [self'] is [self] with, at most, another generator. *)
Definition same_but_rng {G : Type} (self self' : SimulationEngine G) : Prop :=
  params self' = params self /\ tables self' = tables self.

(** The round contract for a contest of [R] rounds: a finish ends in a
    round of [[1, R]], a decision or a draw carries round [R + 1]. *)
Definition round_contract (R : Z) (r : FightResult) : Prop :=
  (method r = "KO/TKO/DQ" -> 1 <= round r <= R) /\
  (method r = "Decision" \/ winner r = "Draw" -> round r = R + 1).

End Engine.

Import Engine.

(** ** The construction sequence of app.py *)

Module App.

Section WithGenerator.

Context {G : Type} `{BitGenerator G}.

(** [create_engine_from_sidebar], with the values it reads from the
    session state as arguments: an [OddsConfig], the two weight lists,
    the seed and the draw switch. *)
Definition create_engine (o : OddsConfig) (j p : list float)
  (s : Z) (with_draw : bool) : result (SimulationEngine G) :=
  rbind (RoundDistribution_init j p) (fun rd =>
  SimulationEngine_init
    {| odds := o; round_dist := rd; seed := s; enable_draw := with_draw |}).

End WithGenerator.

End App.

(** ** A generator to run the engine with

    The draws of a seeded generator are a fixed sequence of doubles.  This
    instance reads them off a table of eight dyadic values in [[0, 1)],
    cyclically; a non-negative seed selects the starting position.  The
    seventh value is the largest double below 1, the largest value
    [Generator.random] returns. *)

Module TableGenerator.

Definition table : list float :=
  [0.25; 0.9375; 0.5; 0.0625; 0.75; 0.375; 0x1.fffffffffffffp-1; 0.125]%float.

Definition start (seed : Z) : result nat :=
  if seed <? 0 then Raise (ValueError "expected non-negative integer")
  else Ok (Z.to_nat (seed mod 8)).

Definition step (pos : nat) : float * nat :=
  (nth pos table 0%float, Nat.modulo (S pos) 8).

#[export] Instance generator : BitGenerator nat :=
  {| default_rng := start; next_double := step |}.

End TableGenerator.

Import TableGenerator.

(** ** The generator after [n] draws *)

Definition advance {G : Type} `{BitGenerator G} (n : nat) (g : G) : G :=
  snd (random_array n g).

(** The records of a list that are finishes. *)
Definition is_finish (r : FightResult) : bool :=
  String.eqb (method r) "KO/TKO/DQ".

Definition finishes (recs : list FightResult) : nat :=
  List.length (filter is_finish recs).

(** The five (winner, method) pairs [simulate_batch] writes. *)
Definition record_shape (r : FightResult) : Prop :=
  (winner r = "Joshua" /\ method r = "KO/TKO/DQ")
  \/ (winner r = "Joshua" /\ method r = "Decision")
  \/ (winner r = "Paul" /\ method r = "KO/TKO/DQ")
  \/ (winner r = "Paul" /\ method r = "Decision")
  \/ (winner r = "Draw" /\ method r = "Decision").

(** The outcome names that are not the draw. *)
Definition names_a_fighter (o : string) : Prop :=
  o = "joshua_ko" \/ o = "joshua_decision" \/ o = "paul_ko"
  \/ o = "paul_decision".

(** ** sim/metrics.py

    A pandas [DataFrame] built from the results is the list of its rows, in
    order: [df[mask]] keeps the rows that satisfy the mask, [len] counts
    them, and [iterrows] visits them first to last. *)

Module Metrics.

(** One entry of [self.history]. *)
Record HistoryEntry : Type := {
  tick : Z;
  history_total_sims : Z;
  history_joshua_win_pct : float;
  history_joshua_ko_pct : float
}.

Record SimulationMetrics : Type := {
  results : list FightResult;
  history : list HistoryEntry
}.

(** [SimulationMetrics()] *)
Definition SimulationMetrics_init : SimulationMetrics :=
  {| results := []; history := [] |}.

Definition add_results (new : list FightResult) (self : SimulationMetrics)
  : SimulationMetrics :=
  {| results := results self ++ new; history := history self |}.

Definition reset (self : SimulationMetrics) : SimulationMetrics :=
  {| results := []; history := [] |}.

(** The dict returned by [get_summary_stats]. *)
Record SummaryStats : Type := {
  total_sims : Z;
  joshua_win_pct : float;
  paul_win_pct : float;
  draw_pct : float;
  joshua_ko_pct : float;
  joshua_decision_pct : float;
  paul_ko_pct : float;
  paul_decision_pct : float
}.

(** [len(df[df["winner"] == w])] *)
Definition count_winner (w : string) (rs : list FightResult) : Z :=
  Z.of_nat (List.length (filter (fun r => String.eqb (winner r) w) rs)).

(** [len(df[(df["winner"] == w) & (df["method"] == m)])] *)
Definition count_winner_method (w m : string) (rs : list FightResult) : Z :=
  Z.of_nat (List.length
              (filter (fun r => String.eqb (winner r) w
                                && String.eqb (method r) m) rs)).

(** [(count / total) * 100] on two [int]s. *)
Definition percentage (count total : Z) : result float :=
  rbind (Py.int_truediv count total) (fun q => Ok (q * 100)%float).

Definition get_summary_stats (self : SimulationMetrics) : result SummaryStats :=
  match results self with
  | [] =>
      Ok {| total_sims := 0;
            joshua_win_pct := 0; paul_win_pct := 0; draw_pct := 0;
            joshua_ko_pct := 0; joshua_decision_pct := 0;
            paul_ko_pct := 0; paul_decision_pct := 0 |}
  | _ :: _ =>
      let rs := results self in
      let total := Z.of_nat (List.length rs) in
      let joshua_wins := count_winner "Joshua" rs in
      let paul_wins := count_winner "Paul" rs in
      let draws := count_winner "Draw" rs in
      let joshua_ko := count_winner_method "Joshua" "KO/TKO/DQ" rs in
      let joshua_dec := count_winner_method "Joshua" "Decision" rs in
      let paul_ko := count_winner_method "Paul" "KO/TKO/DQ" rs in
      let paul_dec := count_winner_method "Paul" "Decision" rs in
      rbind (percentage joshua_wins total) (fun jw =>
      rbind (percentage paul_wins total) (fun pw =>
      rbind (percentage draws total) (fun dr =>
      rbind (percentage joshua_ko total) (fun jk =>
      rbind (percentage joshua_dec total) (fun jd =>
      rbind (percentage paul_ko total) (fun pk =>
      rbind (percentage paul_dec total) (fun pd =>
      Ok {| total_sims := total;
            joshua_win_pct := jw; paul_win_pct := pw; draw_pct := dr;
            joshua_ko_pct := jk; joshua_decision_pct := jd;
            paul_ko_pct := pk; paul_decision_pct := pd |})))))))
  end.

(** The label [get_outcome_distribution] gives a row. *)
Definition outcome_label (r : FightResult) : string :=
  if String.eqb (winner r) "Draw" then "Draw"
  else winner r ++ " " ++ method r.

(** [outcomes.count(label)] *)
Definition count_label (label : string) (labels : list string) : Z :=
  Z.of_nat (count_occ string_dec labels label).

(** [get_outcome_distribution]: a dict of five counts, in this order. *)
Definition get_outcome_distribution (self : SimulationMetrics)
  : list (string * Z) :=
  match results self with
  | [] =>
      [("Joshua KO/TKO/DQ", 0); ("Joshua Decision", 0);
       ("Paul KO/TKO/DQ", 0); ("Paul Decision", 0); ("Draw", 0)]
  | _ :: _ =>
      let outcomes := map outcome_label (results self) in
      [("Joshua KO/TKO/DQ", count_label "Joshua KO/TKO/DQ" outcomes);
       ("Joshua Decision", count_label "Joshua Decision" outcomes);
       ("Paul KO/TKO/DQ", count_label "Paul KO/TKO/DQ" outcomes);
       ("Paul Decision", count_label "Paul Decision" outcomes);
       ("Draw", count_label "Draw" outcomes)]
  end.

(** [l[i] += 1] for a non-negative index. *)
Fixpoint increment (l : list Z) (i : nat) : result (list Z) :=
  match l, i with
  | [], _ => Raise (IndexError "list index out of range")
  | x :: l', O => Ok ((x + 1) :: l')
  | x :: l', S i' => rbind (increment l' i') (fun l'' => Ok (x :: l''))
  end.

(** The dict returned by [get_ko_round_distribution]. *)
Record KoRounds : Type := {
  Joshua : list Z;
  Paul : list Z
}.

(** The body of the loop over the rows of [ko_df]. *)
Definition ko_round_step (acc : KoRounds) (row : FightResult)
  : result KoRounds :=
  let round_num := round row - 1 in
  if (0 <=? round_num) && (round_num <? 8) then
    if String.eqb (winner row) "Joshua" then
      rbind (increment (Joshua acc) (Z.to_nat round_num)) (fun jr =>
      Ok {| Joshua := jr; Paul := Paul acc |})
    else if String.eqb (winner row) "Paul" then
      rbind (increment (Paul acc) (Z.to_nat round_num)) (fun pr =>
      Ok {| Joshua := Joshua acc; Paul := pr |})
    else Ok acc
  else Ok acc.

Fixpoint ko_round_loop (rows : list FightResult) (acc : KoRounds)
  : result KoRounds :=
  match rows with
  | [] => Ok acc
  | row :: rest => rbind (ko_round_step acc row) (ko_round_loop rest)
  end.

Definition get_ko_round_distribution (self : SimulationMetrics)
  : result KoRounds :=
  match results self with
  | [] => Ok {| Joshua := repeat 0 8; Paul := repeat 0 8 |}
  | _ :: _ =>
      let ko_df := filter is_finish (results self) in
      ko_round_loop ko_df {| Joshua := repeat 0 8; Paul := repeat 0 8 |}
  end.

Definition record_history (t : Z) (self : SimulationMetrics)
  : result SimulationMetrics :=
  rbind (get_summary_stats self) (fun stats =>
  Ok {| results := results self;
        history :=
          history self
          ++ [ {| tick := t;
                  history_total_sims := total_sims stats;
                  history_joshua_win_pct := joshua_win_pct stats;
                  history_joshua_ko_pct := joshua_ko_pct stats |} ] |}).

(** The sum of a list of counts. *)
Definition sum_counts (l : list Z) : Z := fold_right Z.add 0 l.

(** A row that [get_ko_round_distribution] counts for the fighter [w]: a
    finish won by [w] in a round of 1..8. *)
Definition counted_finish (w : string) (r : FightResult) : bool :=
  is_finish r && String.eqb (winner r) w
  && (1 <=? round r) && (round r <=? 8).

End Metrics.

(** ** Inputs used in the examples *)

(** The default round weights of app.py. *)
Definition joshua_weights : list float :=
  [0.22; 0.20; 0.16; 0.12; 0.10; 0.08; 0.07; 0.05]%float.

Definition paul_weights : list float :=
  [0.06; 0.07; 0.10; 0.12; 0.16; 0.18; 0.17; 0.14]%float.

Definition zero_weights : list float := repeat 0%float 8.

(** The default odds, for a contest of twelve rounds. *)
Definition odds_twelve_rounds : OddsConfig :=
  {| joshua_moneyline := -1200; paul_moneyline := 800;
     joshua_ko := -390; joshua_decision := 450;
     paul_ko := 1200; paul_decision := 1300;
     draw := 2500; total_rounds := 12 |}.

(** The default odds with the draw priced at +2700. *)
Definition odds_draw_2700 : OddsConfig :=
  {| joshua_moneyline := -1200; paul_moneyline := 800;
     joshua_ko := -390; joshua_decision := 450;
     paul_ko := 1200; paul_decision := 1300;
     draw := 2700; total_rounds := 8 |}.

Definition default_round_dist : RoundDistribution :=
  {| joshua_ko_rounds := joshua_weights; paul_ko_rounds := paul_weights |}.

(** [SimulationParams(OddsConfig(), round_dist, seed=0)] *)
Definition default_params : SimulationParams :=
  {| odds := OddsConfig_default; round_dist := default_round_dist;
     seed := 0; enable_draw := false |}.

(** The engine constructed from [default_params] over the table
    generator. *)
Definition default_engine : SimulationEngine nat :=
  {| params := default_params;
     rng := 0%nat;
     normalized_probs :=
       [("joshua_ko", 0.70679931563272291%float);
        ("joshua_decision", 0.16145998352449148%float);
        ("paul_ko", 0.06830999302959255%float);
        ("paul_decision", 0.063430707813193085%float)];
     outcomes := ["joshua_ko"; "joshua_decision"; "paul_ko"; "paul_decision"];
     cumulative_probs :=
       [0.70679931563272291; 0.86825929915721445; 0.93656929218680696; 1]%float
  |}.

(** The default parameters over all-zero round weights. *)
Definition zero_weight_params : SimulationParams :=
  {| odds := OddsConfig_default;
     round_dist :=
       {| joshua_ko_rounds := zero_weights; paul_ko_rounds := zero_weights |};
     seed := 0; enable_draw := false |}.

Definition zero_weight_engine : SimulationEngine nat :=
  {| params := zero_weight_params;
     rng := 0%nat;
     normalized_probs := normalized_probs default_engine;
     outcomes := outcomes default_engine;
     cumulative_probs := cumulative_probs default_engine |}.

(** The default parameters for a contest of twelve rounds, seed 1. *)
Definition twelve_round_params : SimulationParams :=
  {| odds := odds_twelve_rounds; round_dist := default_round_dist;
     seed := 1; enable_draw := false |}.

Definition twelve_round_engine : SimulationEngine nat :=
  {| params := twelve_round_params;
     rng := 1%nat;
     normalized_probs := normalized_probs default_engine;
     outcomes := outcomes default_engine;
     cumulative_probs := cumulative_probs default_engine |}.

(** The default parameters with the four method prices at 0. *)
Definition price_zero_params : SimulationParams :=
  {| odds := {| joshua_moneyline := -1200; paul_moneyline := 800;
                joshua_ko := 0; joshua_decision := 0;
                paul_ko := 0; paul_decision := 0;
                draw := 2500; total_rounds := 8 |};
     round_dist := default_round_dist; seed := 0; enable_draw := false |}.

(** The engine constructed with the draw enabled and priced at +2700,
    seed 6: its cumulative table ends below 1.0. *)
Definition drifted_params : SimulationParams :=
  {| odds := odds_draw_2700; round_dist := default_round_dist;
     seed := 6; enable_draw := true |}.

Definition drifted_engine : SimulationEngine nat :=
  {| params := drifted_params;
     rng := 6%nat;
     normalized_probs :=
       [("joshua_ko", 0.68507201424930131%float);
        ("joshua_decision", 0.15649663728771918%float);
        ("paul_ko", 0.066210115775573508%float);
        ("paul_decision", 0.061480821791603961%float);
        ("draw", 0.03074041089580198%float)];
     outcomes :=
       ["joshua_ko"; "joshua_decision"; "paul_ko"; "paul_decision"; "draw"];
     cumulative_probs :=
       [0.68507201424930131; 0.84156865153702043; 0.90777876731259388;
        0.96925958910419785; 0.99999999999999978]%float |}.

(** Three records as [simulate_batch(3, 0)] returns them from
    [default_engine]. *)
Definition sample_records : list FightResult :=
  [ {| sim_id := 0; winner := "Joshua"; method := "KO/TKO/DQ"; round := 1 |};
    {| sim_id := 1; winner := "Paul"; method := "Decision"; round := 9 |};
    {| sim_id := 2; winner := "Joshua"; method := "KO/TKO/DQ"; round := 5 |} ].

(** * Properties *)

(** ** Doubles *)



(** ** sim/odds.py: the values of tests/test_odds.py *)

Example implied_prob_minus_1200 :
  Odds.american_to_implied_prob (-1200) = Ok 0.9230769230769231%float.
Proof. vm_compute. reflexivity. Qed.

Example implied_prob_800 :
  Odds.american_to_implied_prob 800 = Ok 0.1111111111111111%float.
Proof. vm_compute. reflexivity. Qed.

Example implied_prob_100 :
  Odds.american_to_implied_prob 100 = Ok 0.5%float.
Proof. vm_compute. reflexivity. Qed.

Example normalize_probs_two :
  Odds.normalize_probs [("A", 0.6%float); ("B", 0.5%float)]
  = Ok [("A", 0.5454545454545454%float); ("B", 0.45454545454545453%float)].
Proof. vm_compute. reflexivity. Qed.

Example normalize_probs_zero_sum :
  Odds.normalize_probs [("A", 0%float); ("B", 0%float)]
  = Raise (ValueError "Sum of probabilities cannot be zero").
Proof. vm_compute. reflexivity. Qed.

(** C3, as stated, fails: at a price of exactly 0 the test [odds > 0] is
    false, so the result is not 0.5. *)
Lemma implied_prob_zero_is_not_half :
  Odds.american_to_implied_prob 0 <> Ok 0.5%float.
Proof.
  intros H.
  apply (f_equal (fun r => match r with Ok x => is_zero x | Raise _ => false end))
    in H.
  vm_compute in H. discriminate H.
Qed.

(** C3 (amended): at a price of exactly 0, [american_to_implied_prob] takes
    the branch of the non-positive prices, [abs(odds) / (abs(odds) + 100)],
    and returns 0.0; it does not fail. *)
Theorem implied_prob_zero :
  Odds.american_to_implied_prob 0
  = Py.int_truediv (Z.abs 0) (Z.abs 0 + 100)
  /\ Odds.american_to_implied_prob 0 = Ok 0%float.
Proof. split; vm_compute; reflexivity. Qed.

(** ** sim/model.py *)

Lemma length_eqb_8 (l : list float) :
  negb (Nat.eqb (List.length l) 8) = false <-> List.length l = 8%nat.
Proof.
  rewrite negb_false_iff. apply Nat.eqb_eq.
Qed.

Lemma length_neqb_8 (l : list float) :
  negb (Nat.eqb (List.length l) 8) = true <-> List.length l <> 8%nat.
Proof.
  rewrite negb_true_iff. apply Nat.eqb_neq.
Qed.

(** The cases of tests/test_model.py. *)
Example round_distribution_wrong_length :
  RoundDistribution_init [0.2; 0.2; 0.2; 0.2]%float paul_weights
  = Raise (ValueError "joshua_ko_rounds must have 8 values").
Proof. reflexivity. Qed.

Example round_distribution_negative :
  RoundDistribution_init
    [-0.1; 0.2; 0.2; 0.2; 0.1; 0.1; 0.05; 0.05]%float paul_weights
  = Raise (ValueError "joshua_ko_rounds must be non-negative").
Proof. vm_compute. reflexivity. Qed.

(** C4, as stated, fails: the constructor accepts two all-zero vectors,
    stores them as they are, and an engine is built on the result. *)
Lemma zero_weights_are_accepted :
  RoundDistribution_init zero_weights zero_weights
  = Ok {| joshua_ko_rounds := zero_weights; paul_ko_rounds := zero_weights |}
  /\ exists self : SimulationEngine nat,
       App.create_engine OddsConfig_default zero_weights zero_weights 42 false
       = Ok self
       /\ joshua_ko_rounds (round_dist (params self)) = zero_weights
       /\ paul_ko_rounds (round_dist (params self)) = zero_weights.
Proof.
  split; [vm_compute; reflexivity |].
  eexists. split; [vm_compute; reflexivity |].
  split; reflexivity.
Qed.

(** C4 (amended): constructing a [RoundDistribution] from two vectors of 8
    non-negative weights never fails; a vector whose sum is not positive
    (in particular the all-zero vector) is stored unchanged, without being
    rescaled and without an error. *)
Theorem zero_sum_weights_kept (j p : list float)
  (Hj : List.length j = 8%nat) (Hp : List.length p = 8%nat)
  (Hjn : any_negative j = false) (Hpn : any_negative p = false) :
  exists rd,
    RoundDistribution_init j p = Ok rd
    /\ ((0 <? Py.sum j)%float = false -> joshua_ko_rounds rd = j)
    /\ ((0 <? Py.sum p)%float = false -> paul_ko_rounds rd = p).
Proof.
  unfold RoundDistribution_init.
  apply length_eqb_8 in Hj, Hp. rewrite Hj, Hp, Hjn, Hpn.
  eexists. split; [reflexivity |]. simpl.
  split; intros H; rewrite H; reflexivity.
Qed.

Lemma zero_sum_weights_kept_witness :
  (List.length zero_weights = 8%nat /\ List.length paul_weights = 8%nat
   /\ any_negative zero_weights = false /\ any_negative paul_weights = false)
  /\ (0 <? Py.sum zero_weights)%float = false
  /\ exists rd,
       RoundDistribution_init zero_weights paul_weights = Ok rd
       /\ joshua_ko_rounds rd = zero_weights.
Proof.
  split; [repeat split; reflexivity |].
  split; [reflexivity |].
  destruct (zero_sum_weights_kept zero_weights paul_weights
              eq_refl eq_refl eq_refl eq_refl) as [rd [Hrd [Hj _]]].
  exists rd. split; [exact Hrd | apply Hj; reflexivity].
Defined.

(** C5, as stated, fails: with [total_rounds = 12] the two vectors of 8
    weights, whose length differs from [total_rounds], are accepted and an
    engine is built; a vector of 12 weights, whose length is
    [total_rounds], is rejected. *)
Lemma length_is_checked_against_8 :
  total_rounds odds_twelve_rounds = 12
  /\ List.length joshua_weights = 8%nat
  /\ (exists self : SimulationEngine nat,
        App.create_engine odds_twelve_rounds joshua_weights paul_weights
          42 false = Ok self)
  /\ App.create_engine (G := nat) odds_twelve_rounds
       (repeat 0.125%float 12) paul_weights 42 false
     = Raise (ValueError "joshua_ko_rounds must have 8 values").
Proof.
  split; [reflexivity |]. split; [reflexivity |].
  split; [eexists; vm_compute; reflexivity | reflexivity].
Qed.

(** C5 (amended): whatever [total_rounds] is, constructing the model with a
    round-weight vector whose length differs from 8 fails with a
    [ValueError] whose message names the first offending fighter's vector
    and the expected length 8 (the actual length is not reported). *)
Theorem wrong_length_rejected {G : Type} `{BitGenerator G}
  (o : OddsConfig) (j p : list float) (s : Z) (with_draw : bool)
  (Hlen : List.length j <> 8%nat \/ List.length p <> 8%nat) :
  App.create_engine (G := G) o j p s with_draw
  = Raise (ValueError (if Nat.eqb (List.length j) 8
                       then "paul_ko_rounds must have 8 values"
                       else "joshua_ko_rounds must have 8 values")).
Proof.
  unfold App.create_engine, RoundDistribution_init.
  destruct (Nat.eqb (List.length j) 8) eqn:Ej; simpl.
  - apply Nat.eqb_eq in Ej. destruct Hlen as [Hj | Hp]; [contradiction |].
    apply length_neqb_8 in Hp. rewrite Hp. reflexivity.
  - reflexivity.
Qed.

Lemma wrong_length_rejected_witness :
  (List.length [0.2; 0.2; 0.2; 0.2]%float <> 8%nat
   \/ List.length paul_weights <> 8%nat)
  /\ App.create_engine (G := nat) odds_twelve_rounds
       [0.2; 0.2; 0.2; 0.2]%float paul_weights 42 false
     = Raise (ValueError "joshua_ko_rounds must have 8 values").
Proof.
  assert (Hlen : List.length [0.2; 0.2; 0.2; 0.2]%float <> 8%nat
                 \/ List.length paul_weights <> 8%nat)
    by (left; simpl; lia).
  split; [exact Hlen |].
  exact (wrong_length_rejected (G := nat) odds_twelve_rounds
           [0.2; 0.2; 0.2; 0.2]%float paul_weights 42 false Hlen).
Defined.

(** ** numpy helpers *)

Lemma searchsorted_le_length (a : list float) (v : float) :
  (Np.searchsorted a v <= List.length a)%nat.
Proof.
  induction a as [| x a IH]; simpl; [lia |].
  destruct (x <? v)%float; lia.
Qed.


Lemma cumsum_from_length (xs : list float) (acc : float) :
  List.length (Np.cumsum_from acc xs) = List.length xs.
Proof.
  revert acc. induction xs as [| x xs IH]; intros acc; simpl;
    [reflexivity | now rewrite IH].
Qed.

Lemma cumsum_length (xs : list float) :
  List.length (Np.cumsum xs) = List.length xs.
Proof.
  destruct xs as [| x xs]; simpl; [reflexivity | now rewrite cumsum_from_length].
Qed.

Lemma rmap_length {A B : Type} (f : A -> result B) (l : list A) (l' : list B) :
  rmap f l = Ok l' -> List.length l' = List.length l.
Proof.
  revert l'. induction l as [| x xs IH]; intros l'; simpl.
  - intros H. inversion H. reflexivity.
  - destruct (f x) as [y |]; simpl; [| discriminate].
    destruct (rmap f xs) as [ys |]; simpl; [| discriminate].
    intros H. inversion H. simpl. now rewrite (IH ys eq_refl).
Qed.

Lemma random_array_length {G : Type} `{BitGenerator G} (n : nat) (g : G) :
  List.length (fst (random_array n g)) = n.
Proof.
  revert g. induction n as [| n IH]; intros g; simpl; [reflexivity |].
  destruct (next_double g) as [u g1]. specialize (IH g1).
  destruct (random_array n g1) as [us g2]. simpl in *. now rewrite IH.
Qed.


(** ** sim/engine.py: what every call preserves *)

Section EngineFacts.

Context {G : Type} `{BitGenerator G}.

Lemma same_but_rng_refl (self : SimulationEngine G) : same_but_rng self self.
Proof. split; reflexivity. Qed.

Lemma same_but_rng_trans (a b c : SimulationEngine G) :
  same_but_rng a b -> same_but_rng b c -> same_but_rng a c.
Proof.
  intros [H1 H2] [H3 H4]. split; congruence.
Qed.

Lemma set_rng_same (g : G) (self : SimulationEngine G) :
  same_but_rng self (set_rng g self).
Proof. split; reflexivity. Qed.

Lemma set_rng_rng (self : SimulationEngine G) : set_rng (rng self) self = self.
Proof. destruct self; reflexivity. Qed.

Lemma same_outcomes (a b : SimulationEngine G) :
  same_but_rng a b -> outcomes b = outcomes a.
Proof. intros [_ Ht]. unfold tables in Ht. congruence. Qed.

Lemma same_cumulative (a b : SimulationEngine G) :
  same_but_rng a b -> cumulative_probs b = cumulative_probs a.
Proof. intros [_ Ht]. unfold tables in Ht. congruence. Qed.

(** [_sample_round] never raises, draws once, and returns a round of
    [[1, 8]]. *)
Lemma sample_round_run (round_probs : list float) (self : SimulationEngine G) :
  _sample_round round_probs self
  = (Ok (Z.min (Z.of_nat (Np.searchsorted (Np.cumsum round_probs)
                            (fst (next_double (rng self)))) + 1) 8),
     set_rng (snd (next_double (rng self))) self).
Proof.
  unfold _sample_round, bind, rng_random, ret.
  destruct (next_double (rng self)) as [u g]. reflexivity.
Qed.

Lemma sample_round_range (round_probs : list float) (self : SimulationEngine G) :
  exists r self',
    _sample_round round_probs self = (Ok r, self')
    /\ 1 <= r <= 8 /\ same_but_rng self self'.
Proof.
  rewrite sample_round_run. do 2 eexists. split; [reflexivity |].
  split; [lia | apply set_rng_same].
Qed.

(** The record of one iteration: its id, and its rounds as the code
    fixes them. *)
Lemma simulate_one_cases (start_id i : Z) (idx : nat)
  (self : SimulationEngine G) :
  (exists r self',
     simulate_one start_id i idx self = (Ok r, self')
     /\ (idx < List.length (outcomes self))%nat
     /\ sim_id r = start_id + i
     /\ round_contract 8 r
     /\ same_but_rng self self')
  \/ (simulate_one start_id i idx self
      = (Raise (IndexError "list index out of range"), self)
      /\ (List.length (outcomes self) <= idx)%nat).
Proof.
  unfold simulate_one, bind, get_self, lift, Py.index.
  destruct (nth_error (outcomes self) idx) as [outcome |] eqn:Hnth.
  - left.
    assert (Hidx : (idx < List.length (outcomes self))%nat)
      by (apply nth_error_Some; congruence).
    destruct (String.eqb outcome "joshua_ko");
      [| destruct (String.eqb outcome "joshua_decision");
         [| destruct (String.eqb outcome "paul_ko");
            [| destruct (String.eqb outcome "paul_decision")]]].
    all: try (destruct (sample_round_range
                          (joshua_ko_rounds (round_dist (params self))) self)
                as [r [self' [Hrun [Hr Hsame]]]]; rewrite Hrun).
    all: try (destruct (sample_round_range
                          (paul_ko_rounds (round_dist (params self))) self)
                as [r [self' [Hrun [Hr Hsame]]]]; rewrite Hrun).
    all: unfold ret; do 2 eexists; split; [reflexivity |].
    all: split; [exact Hidx |]; split; [reflexivity |].
    all: split; [| first [exact Hsame | apply same_but_rng_refl]].
    all: unfold round_contract; simpl; split; intros Hm;
      try discriminate; try lia; try reflexivity.
    all: destruct Hm; discriminate.
  - right. split; [reflexivity |]. now apply nth_error_None.
Qed.

End EngineFacts.

Section LoopFacts.

Context {G : Type} `{BitGenerator G}.

(** The loop only advances the generator, whether it returns or raises. *)
Lemma simulate_loop_same (idxs : list nat) :
  forall (start_id i : Z) (acc : list FightResult) (self : SimulationEngine G),
    same_but_rng self (snd (simulate_loop start_id i idxs acc self)).
Proof.
  induction idxs as [| idx rest IH]; intros start_id i acc self; simpl.
  - apply same_but_rng_refl.
  - unfold bind.
    destruct (simulate_one_cases start_id i idx self)
      as [[r [self' [Hrun [_ [_ [_ Hsame]]]]]] | [Hrun _]]; rewrite Hrun.
    + eapply same_but_rng_trans; [exact Hsame | apply IH].
    + apply same_but_rng_refl.
Qed.


(** Every record the loop returns obeys the 8-round contract, and the
    ids count up from [start_id + i]. *)
Lemma simulate_loop_records (idxs : list nat) :
  forall (start_id i : Z) (acc recs : list FightResult)
         (self self' : SimulationEngine G),
    simulate_loop start_id i idxs acc self = (Ok recs, self') ->
    exists new,
      recs = acc ++ new
      /\ Forall (round_contract 8) new
      /\ map sim_id new
         = map (fun k => start_id + i + Z.of_nat k) (seq 0 (List.length idxs)).
Proof.
  induction idxs as [| idx rest IH]; intros start_id i acc recs self self'; simpl.
  - unfold ret. intros Hrun. inversion Hrun; subst.
    exists []. rewrite app_nil_r. repeat split; constructor.
  - unfold bind.
    destruct (simulate_one_cases start_id i idx self)
      as [[r [self1 [Hrun [_ [Hid [Hr _]]]]]] | [Hrun _]]; rewrite Hrun;
      [| discriminate].
    intros Hloop. apply IH in Hloop. destruct Hloop as [new [Hrecs [Hall Hids]]].
    exists (r :: new). rewrite Hrecs, <- app_assoc. simpl.
    split; [reflexivity |]. split; [constructor; assumption |].
    rewrite Hid, Hids, <- seq_shift, map_map. f_equal; [lia |].
    apply map_ext. intros k. lia.
Qed.

(** [simulate_batch], unfolded for a non-negative count. *)
Lemma simulate_batch_run (count start_id : Z) (self : SimulationEngine G) :
  0 <= count ->
  simulate_batch count start_id self
  = simulate_loop start_id 0
      (map (Np.searchsorted (cumulative_probs self))
           (fst (random_array (Z.to_nat count) (rng self))))
      []
      (set_rng (snd (random_array (Z.to_nat count) (rng self))) self).
Proof.
  intros Hcount. unfold simulate_batch, bind, rng_random_array, get_self.
  destruct (count <? 0) eqn:Hneg; [apply Z.ltb_lt in Hneg; lia |].
  destruct (random_array (Z.to_nat count) (rng self)) as [us g].
  reflexivity.
Qed.

Lemma simulate_batch_negative (count start_id : Z) (self : SimulationEngine G) :
  count < 0 ->
  simulate_batch count start_id self
  = (Raise (ValueError "negative dimensions are not allowed"), self).
Proof.
  intros Hcount. unfold simulate_batch, bind, rng_random_array.
  apply Z.ltb_lt in Hcount. rewrite Hcount. reflexivity.
Qed.

Lemma simulate_batch_same (count start_id : Z) (self : SimulationEngine G) :
  same_but_rng self (snd (simulate_batch count start_id self)).
Proof.
  destruct (Z.lt_ge_cases count 0) as [Hneg | Hpos].
  - rewrite simulate_batch_negative by exact Hneg. apply same_but_rng_refl.
  - rewrite simulate_batch_run by exact Hpos.
    eapply same_but_rng_trans; [apply set_rng_same | apply simulate_loop_same].
Qed.

(** ** Construction *)

Lemma compute_probabilities_seed (s : Z) (p : SimulationParams) :
  _compute_probabilities (set_seed s p) = _compute_probabilities p.
Proof. reflexivity. Qed.

Lemma set_seed_set_seed (s s' : Z) (p : SimulationParams) :
  set_seed s (set_seed s' p) = set_seed s p.
Proof. reflexivity. Qed.

Lemma init_fields (p : SimulationParams) (self : SimulationEngine G) :
  SimulationEngine_init p = Ok self ->
  params self = p /\ default_rng (seed p) = Ok (rng self)
  /\ _compute_probabilities p = Ok (tables self).
Proof.
  unfold SimulationEngine_init.
  destruct (default_rng (seed p)) as [g |]; simpl; [| discriminate].
  destruct (_compute_probabilities p) as [[[n o] c] |]; simpl; [| discriminate].
  intros Hinit. inversion Hinit; subst. repeat split; reflexivity.
Qed.

(** [reseed] touches the generator and the seed only. *)
Lemma reseed_tables (s : Z) (self : SimulationEngine G) :
  tables (snd (reseed s self)) = tables self
  /\ set_seed 0 (params (snd (reseed s self))) = set_seed 0 (params self).
Proof.
  unfold reseed. destruct (default_rng s); split; reflexivity.
Qed.

(** The outcome list and the cumulative table are built together: same
    length, four or five entries. *)
Lemma compute_probabilities_shape (p : SimulationParams)
  (n : list (string * float)) (o : list string) (c : list float) :
  _compute_probabilities p = Ok (n, o, c) ->
  List.length c = List.length o
  /\ o = (if enable_draw p
          then ["joshua_ko"; "joshua_decision"; "paul_ko"; "paul_decision";
                "draw"]
          else ["joshua_ko"; "joshua_decision"; "paul_ko"; "paul_decision"]).
Proof.
  unfold _compute_probabilities.
  destruct (Odds.american_to_implied_prob _); simpl; [| discriminate].
  destruct (Odds.american_to_implied_prob _); simpl; [| discriminate].
  destruct (Odds.american_to_implied_prob _); simpl; [| discriminate].
  destruct (Odds.american_to_implied_prob _); simpl; [| discriminate].
  match goal with |- rbind ?x _ = _ -> _ => destruct x; simpl; [| discriminate] end.
  destruct (Odds.normalize_probs _); simpl; [| discriminate].
  match goal with |- rbind (rmap ?f ?l) _ = _ -> _ =>
    destruct (rmap f l) as [values |] eqn:Hmap; simpl; [| discriminate] end.
  intros Hok. inversion Hok; subst.
  apply rmap_length in Hmap. rewrite cumsum_length, Hmap.
  split; [reflexivity |]. destruct (enable_draw p); reflexivity.
Qed.

(** What holds of every state an engine built from [p] goes through:
    its tables are those computed from [p], and its stored parameters are
    [p] up to the seed. *)
Lemma reachable_tables (p : SimulationParams) (self : SimulationEngine G) :
  reachable p self ->
  _compute_probabilities p = Ok (tables self)
  /\ set_seed 0 (params self) = set_seed 0 p.
Proof.
  induction 1 as [self Hinit | self count start_id _ [IHt IHp]
                  | self s _ [IHt IHp]].
  - apply init_fields in Hinit. destruct Hinit as [Hp [_ Ht]].
    split; [exact Ht | now rewrite Hp].
  - destruct (simulate_batch_same count start_id self) as [Hp Ht].
    rewrite Hp, Ht. split; assumption.
  - destruct (reseed_tables s self) as [Ht Hp].
    rewrite Ht, Hp. split; assumption.
Qed.

End LoopFacts.

(** ** The example inputs are what the constructors return *)

Example default_round_dist_constructed :
  RoundDistribution_init joshua_weights paul_weights = Ok default_round_dist.
Proof. vm_compute. reflexivity. Qed.

Example default_engine_constructed :
  SimulationEngine_init default_params = Ok default_engine.
Proof. vm_compute. reflexivity. Qed.

Example default_engine_created :
  App.create_engine OddsConfig_default joshua_weights paul_weights 0 false
  = Ok default_engine.
Proof. vm_compute. reflexivity. Qed.

Example zero_weight_engine_constructed :
  SimulationEngine_init zero_weight_params = Ok zero_weight_engine.
Proof. vm_compute. reflexivity. Qed.


(** ** Determinism *)



(** ** Rounds *)

Example twelve_round_engine_created :
  App.create_engine odds_twelve_rounds joshua_weights paul_weights 1 false
  = Ok twelve_round_engine.
Proof. vm_compute. reflexivity. Qed.

(** C2, as stated, fails: in a contest configured with
    [total_rounds = 12], seed 1 draws 0.9375, a decision for Paul, and the
    record carries round 9, not [total_rounds + 1 = 13]. *)
Lemma decision_round_ignores_total_rounds :
  total_rounds (odds (params twelve_round_engine)) = 12
  /\ exists r self',
       simulate_batch 1 0 twelve_round_engine = (Ok [r], self')
       /\ method r = "Decision" /\ round r = 9
       /\ ~ round_contract (total_rounds (odds (params twelve_round_engine))) r.
Proof.
  split; [reflexivity |].
  do 2 eexists.
  split; [vm_compute; reflexivity |].
  split; [reflexivity |]. split; [reflexivity |].
  intros [_ Hdec]. simpl in Hdec.
  specialize (Hdec (or_introl eq_refl)). discriminate Hdec.
Qed.

(** C2 (amended): whatever [total_rounds] is, every record returned by
    [simulate_batch] has its round in [[1, 8]] when the method is a finish
    (KO/TKO/DQ), and round 9 when the method is a decision or the winner is
    a draw. *)
Theorem rounds_are_fixed_at_eight {G : Type} `{BitGenerator G}
  (self self' : SimulationEngine G) (count start_id : Z)
  (recs : list FightResult)
  (Hrun : simulate_batch count start_id self = (Ok recs, self')) :
  Forall (round_contract 8) recs.
Proof.
  destruct (Z.lt_ge_cases count 0) as [Hneg | Hpos].
  - rewrite simulate_batch_negative in Hrun by exact Hneg. discriminate Hrun.
  - rewrite simulate_batch_run in Hrun by exact Hpos.
    apply simulate_loop_records in Hrun.
    destruct Hrun as [new [Hrecs [Hall _]]]. simpl in Hrecs. now subst recs.
Qed.

Lemma rounds_are_fixed_at_eight_witness :
  exists recs self',
    simulate_batch 3 0 twelve_round_engine = (Ok recs, self')
    /\ Forall (round_contract 8) recs.
Proof.
  do 2 eexists.
  split.
  - vm_compute. reflexivity.
  - eapply (rounds_are_fixed_at_eight twelve_round_engine _ 3 0).
    vm_compute. reflexivity.
Defined.

(** ** Totality of [simulate_batch] *)




(** Without the premise of C6 the call can raise: with the draw enabled
    and priced at +2700 the cumulative table ends one unit in the last place
    below 1.0, and the largest uniform, above it, selects index 5 of a
    five-entry outcome list. *)
Lemma simulate_batch_raises_below_one :
  exists self : SimulationEngine nat,
    App.create_engine odds_draw_2700 joshua_weights paul_weights 6 true
    = Ok self
    /\ last (cumulative_probs self) 0%float = 0x1.ffffffffffffep-1%float
    /\ fst (next_double (rng self)) = 0x1.fffffffffffffp-1%float
    /\ Np.searchsorted (cumulative_probs self) (fst (next_double (rng self)))
       = 5%nat
    /\ fst (simulate_batch 1 0 self)
       = Raise (IndexError "list index out of range").
Proof.
  eexists. split; [vm_compute; reflexivity |].
  repeat split; vm_compute; reflexivity.
Qed.

(** ** A batch of zero records *)

(** C7: in every engine state and for every [start_id],
    [simulate_batch(0, start_id)] returns the empty list and leaves the
    engine, generator included, as it was; so the next draw, and every
    later sequence of calls, is that of an engine that never made the
    call. *)
Theorem empty_batch_draws_nothing {G : Type} `{BitGenerator G}
  (self : SimulationEngine G) (start_id : Z) :
  simulate_batch 0 start_id self = (Ok [], self)
  /\ next_double (rng (snd (simulate_batch 0 start_id self)))
     = next_double (rng self)
  /\ forall calls,
       simulate_batches calls (snd (simulate_batch 0 start_id self))
       = simulate_batches calls self.
Proof.
  assert (Hrun : simulate_batch 0 start_id self = (Ok [], self)).
  { rewrite simulate_batch_run by lia. simpl. unfold ret.
    now rewrite set_rng_rng. }
  rewrite Hrun. simpl. repeat split; reflexivity.
Qed.

(** ** Reseeding *)

(** C8: in every state of an engine constructed from [p], [reseed(s)]
    leaves the normalized probabilities, the outcome order and the
    cumulative table as they were.  When [default_rng(s)] returns a
    generator, [reseed(s)] installs it, sets the stored seed to [s], and the
    engine is then exactly the one [SimulationEngine] constructs from [p]
    with seed [s]; when it raises, [reseed(s)] raises the same exception
    with the engine unchanged, and so does the construction.  Hence every
    later sequence of [simulate_batch] calls returns what it returns on the
    fresh engine. *)
Theorem reseed_is_fresh_engine {G : Type} `{BitGenerator G}
  (p : SimulationParams) (self : SimulationEngine G) (s : Z)
  (Hreach : reachable p self) :
  tables (snd (reseed s self)) = tables self
  /\ match default_rng s with
     | Ok g =>
         fst (reseed s self) = Ok tt
         /\ rng (snd (reseed s self)) = g
         /\ params (snd (reseed s self)) = set_seed s (params self)
         /\ SimulationEngine_init (set_seed s p) = Ok (snd (reseed s self))
     | Raise e =>
         reseed s self = (Raise e, self)
         /\ SimulationEngine_init (G := G) (set_seed s p) = Raise e
     end
  /\ forall fresh calls,
       SimulationEngine_init (set_seed s p) = Ok fresh ->
       simulate_batches calls (snd (reseed s self))
       = simulate_batches calls fresh.
Proof.
  apply reachable_tables in Hreach. destruct Hreach as [Htab Hpar].
  split; [apply reseed_tables |].
  unfold SimulationEngine_init, reseed. simpl seed.
  rewrite compute_probabilities_seed, Htab.
  destruct (default_rng s) as [g | e]; simpl.
  - assert (Hp : set_seed s p = set_seed s (params self)).
    { rewrite <- (set_seed_set_seed s 0 p), <- Hpar, set_seed_set_seed.
      reflexivity. }
    rewrite Hp. unfold tables.
    split; [repeat split; reflexivity |].
    intros fresh calls Hfresh. inversion Hfresh; subst. reflexivity.
  - split; [split; reflexivity |].
    intros fresh calls Hfresh. discriminate Hfresh.
Qed.

Lemma reseed_is_fresh_engine_witness :
  reachable default_params (snd (simulate_batch 3 0 default_engine))
  /\ SimulationEngine_init (set_seed 1 default_params)
     = Ok (snd (reseed 1 (snd (simulate_batch 3 0 default_engine)))).
Proof.
  assert (Hreach : reachable default_params
                     (snd (simulate_batch 3 0 default_engine)))
    by (apply reachable_batch, reachable_init;
        exact default_engine_constructed).
  split; [exact Hreach |].
  pose proof (reseed_is_fresh_engine default_params
                (snd (simulate_batch 3 0 default_engine)) 1 Hreach)
    as [_ [Hfresh _]].
  simpl default_rng in Hfresh.
  exact (proj2 (proj2 (proj2 Hfresh))).
Defined.

(** A negative seed: [reseed] raises and the engine keeps its generator
    and its seed. *)
Example reseed_negative_seed :
  reseed (-1) default_engine
  = (Raise (ValueError "expected non-negative integer"), default_engine).
Proof. reflexivity. Qed.

(** ** Batching *)

(** The round a uniform [u] selects in the weights [ws]. *)
Lemma sample_round_value {G : Type} `{BitGenerator G}
  (ws : list float) (self : SimulationEngine G) (u : float) (g : G) :
  next_double (rng self) = (u, g) ->
  _sample_round ws self
  = (Ok (Z.min (Z.of_nat (Np.searchsorted (Np.cumsum ws) u) + 1) 8),
     set_rng g self).
Proof.
  intros Hu. rewrite sample_round_run, Hu. reflexivity.
Qed.

(** Which draw decides the round of the first record depends on the batch
    size, for every generator: when the first uniform [u0] selects a finish
    for Joshua, [simulate_batch(1, 0)] takes the round from the second
    uniform [u1], while [simulate_batch(2, 0)] has already spent [u1] on the
    second outcome and takes the round from the third uniform [u2]. *)
Lemma first_round_depends_on_batch_size {G : Type} `{BitGenerator G}
  (self : SimulationEngine G) (u0 u1 u2 : float) (g1 g2 g3 : G) :
  next_double (rng self) = (u0, g1) ->
  next_double g1 = (u1, g2) ->
  next_double g2 = (u2, g3) ->
  nth_error (outcomes self) (Np.searchsorted (cumulative_probs self) u0)
  = Some "joshua_ko" ->
  let round_of u :=
    Z.min (Z.of_nat (Np.searchsorted
                       (Np.cumsum (joshua_ko_rounds (round_dist (params self))))
                       u) + 1) 8 in
  fst (simulate_batch 1 0 self)
  = Ok [ {| sim_id := 0; winner := "Joshua"; method := "KO/TKO/DQ";
            round := round_of u1 |} ]
  /\ forall recs, fst (simulate_batch 2 0 self) = Ok recs ->
       hd_error recs
       = Some {| sim_id := 0; winner := "Joshua"; method := "KO/TKO/DQ";
                 round := round_of u2 |}.
Proof.
  intros H0 H1 H2 Hko round_of. split.
  - rewrite simulate_batch_run by lia.
    change (Z.to_nat 1) with 1%nat. simpl random_array. rewrite H0.
    simpl. unfold bind at 1. unfold simulate_one, bind, get_self, lift, Py.index.
    simpl outcomes. rewrite Hko. simpl.
    rewrite (sample_round_value _ _ u1 g2) by exact H1.
    reflexivity.
  - intros recs Hrun. rewrite simulate_batch_run in Hrun by lia.
    change (Z.to_nat 2) with 2%nat in Hrun. simpl random_array in Hrun.
    rewrite H0, H1 in Hrun. simpl in Hrun. unfold bind at 1 in Hrun.
    unfold simulate_one at 1 in Hrun.
    unfold bind, get_self, lift, Py.index in Hrun.
    simpl outcomes in Hrun. rewrite Hko in Hrun. simpl in Hrun.
    rewrite (sample_round_value _ _ u2 g3) in Hrun by exact H2.
    unfold ret at 1 in Hrun.
    match type of Hrun with
    | fst ?run = _ => destruct run as [[recs' |] self'] eqn:Hloop
    end; simpl in Hrun; [| discriminate Hrun].
    destruct (simulate_one 0 1 _ _) as [[r1 |] self1] in Hloop;
      unfold ret in Hloop; inversion Hloop; subst recs'.
    inversion Hrun; subst recs. reflexivity.
Qed.

(** C9: splitting a run into batches changes the records.  From
    [default_engine] the draws are 0.25, 0.9375, 0.5, 0.0625.  Two batches
    of one use them as outcome, round, outcome, round; one batch of two uses
    the first two as the outcomes and the next one as the round of the first
    record. *)
Theorem batch_split_changes_records :
  exists (p : SimulationParams) (self : SimulationEngine nat)
         (first second whole : list FightResult),
    SimulationEngine_init p = Ok self
    /\ fst (random_array 4 (rng self)) = [0.25; 0.9375; 0.5; 0.0625]%float
    /\ fst (simulate_batches [(1, 0); (1, 1)] self) = Ok [first; second]
    /\ fst (simulate_batch 2 0 self) = Ok whole
    /\ first ++ second
       = [ {| sim_id := 0; winner := "Joshua"; method := "KO/TKO/DQ";
              round := 7 |};
           {| sim_id := 1; winner := "Joshua"; method := "KO/TKO/DQ";
              round := 1 |} ]
    /\ whole
       = [ {| sim_id := 0; winner := "Joshua"; method := "KO/TKO/DQ";
              round := 3 |};
           {| sim_id := 1; winner := "Paul"; method := "Decision";
              round := 9 |} ]
    /\ first ++ second <> whole.
Proof.
  exists default_params, default_engine. do 3 eexists.
  split; [exact default_engine_constructed |].
  split; [reflexivity |].
  split; [vm_compute; reflexivity |].
  split; [vm_compute; reflexivity |].
  split; [reflexivity |]. split; [reflexivity |].
  simpl. discriminate.
Qed.

(** ** [_sample_round] *)

(** C10: on every list of 8 non-negative weights [_sample_round] returns,
    without raising, a round of [[1, 8]]; on the all-zero list every draw
    [u > 0] gives round 8. *)
Theorem sample_round_total {G : Type} `{BitGenerator G}
  (round_probs : list float) (self : SimulationEngine G)
  (Hlen : List.length round_probs = 8%nat)
  (Hnonneg : any_negative round_probs = false) :
  exists r self',
    _sample_round round_probs self = (Ok r, self')
    /\ 1 <= r <= 8
    /\ (round_probs = zero_weights ->
        (0 <? fst (next_double (rng self)))%float = true -> r = 8).
Proof.
  rewrite sample_round_run. do 2 eexists. split; [reflexivity |].
  split; [lia |].
  intros Hzero Hu. subst round_probs.
  change (Np.cumsum zero_weights) with zero_weights.
  unfold zero_weights. simpl. rewrite Hu. reflexivity.
Qed.

Lemma sample_round_total_witness :
  (List.length zero_weights = 8%nat /\ any_negative zero_weights = false
   /\ (0 <? fst (next_double (rng zero_weight_engine)))%float = true)
  /\ exists self', _sample_round zero_weights zero_weight_engine = (Ok 8, self').
Proof.
  split; [repeat split; reflexivity |].
  destruct (sample_round_total zero_weights zero_weight_engine
              eq_refl eq_refl) as [r [self' [Hrun [_ Hr]]]].
  exists self'. rewrite <- (Hr eq_refl eq_refl). exact Hrun.
Defined.

(** * Further properties of the code *)

(** ** sim/odds.py *)

Lemma int_truediv_nonzero (a b : Z) (msg : string) :
  b <> 0 -> Py.int_truediv a b <> Raise (ZeroDivisionError msg).
Proof.
  intros Hb. unfold Py.int_truediv.
  destruct (b =? 0) eqn:Eb; [apply Z.eqb_eq in Eb; contradiction |].
  destruct (a =? 0); [discriminate |].
  destruct (is_infinity _); discriminate.
Qed.

(** X1: [american_to_implied_prob] never divides by zero: the divisor is
    [odds + 100] only for positive odds and [abs(odds) + 100] otherwise, so
    it is at least 100 for every price, -100 included. *)
Theorem implied_prob_never_divides_by_zero (odds : Z) (msg : string) :
  Odds.american_to_implied_prob odds <> Raise (ZeroDivisionError msg)
  /\ 100 <= (if 0 <? odds then odds + 100 else Z.abs odds + 100).
Proof.
  unfold Odds.american_to_implied_prob.
  destruct (0 <? odds) eqn:Epos.
  - apply Z.ltb_lt in Epos. split; [apply int_truediv_nonzero |]; lia.
  - split; [apply int_truediv_nonzero |]; lia.
Qed.

(** ** sim/model.py *)

(** X2: two vectors of 8 weights of which one holds a negative weight are
    rejected with a [ValueError] that names the fighter; Joshua's vector is
    examined first. *)
Theorem negative_weight_rejected (j p : list float)
  (Hj : List.length j = 8%nat) (Hp : List.length p = 8%nat)
  (Hneg : any_negative j = true \/ any_negative p = true) :
  RoundDistribution_init j p
  = Raise (ValueError (if any_negative j
                       then "joshua_ko_rounds must be non-negative"
                       else "paul_ko_rounds must be non-negative")).
Proof.
  unfold RoundDistribution_init.
  apply length_eqb_8 in Hj, Hp. rewrite Hj, Hp.
  destruct (any_negative j); [reflexivity |].
  destruct Hneg as [Hneg | Hneg]; [discriminate Hneg |].
  rewrite Hneg. reflexivity.
Qed.

Lemma negative_weight_rejected_witness :
  (List.length joshua_weights = 8%nat
   /\ List.length [0.1; 0.1; 0.1; -0.1; 0.2; 0.2; 0.1; 0.1]%float = 8%nat
   /\ (any_negative joshua_weights = true
       \/ any_negative [0.1; 0.1; 0.1; -0.1; 0.2; 0.2; 0.1; 0.1]%float = true))
  /\ RoundDistribution_init joshua_weights
       [0.1; 0.1; 0.1; -0.1; 0.2; 0.2; 0.1; 0.1]%float
     = Raise (ValueError "paul_ko_rounds must be non-negative").
Proof.
  assert (Hneg : any_negative joshua_weights = true
                 \/ any_negative
                      [0.1; 0.1; 0.1; -0.1; 0.2; 0.2; 0.1; 0.1]%float = true)
    by (right; reflexivity).
  split; [split; [reflexivity | split; [reflexivity | exact Hneg]] |].
  exact (negative_weight_rejected joshua_weights
           [0.1; 0.1; 0.1; -0.1; 0.2; 0.2; 0.1; 0.1]%float
           eq_refl eq_refl Hneg).
Defined.

(** A quotient of a double that is not negative by a positive double is
    not negative. *)
Lemma SFdiv_not_negative (x y : spec_float) :
  SFltb x (S754_zero false) = false ->
  SFltb (S754_zero false) y = true ->
  SFltb (SFdiv prec emax x y) (S754_zero false) = false.
Proof.
  destruct x as [sx | sx | | sx mx ex], y as [sy | sy | | sy my ey];
    try destruct sx; try destruct sy; simpl; try discriminate;
    try reflexivity.
  intros _ _. unfold SFdiv.
  destruct (SFdiv_core_binary prec emax (Z.pos mx) ex (Z.pos my) ey)
    as [[mz ez] lz].
  unfold binary_round_aux.
  destruct (shr_fexp prec emax mz ez lz) as [mrs' e'].
  destruct (shr_fexp prec emax _ e' loc_Exact) as [mrs'' e''].
  destruct (shr_m mrs''); [reflexivity | | reflexivity].
  destruct (e'' <=? emax - prec); reflexivity.
Qed.

Lemma div_not_negative (x y : float) :
  (x <? 0)%float = false -> (0 <? y)%float = true ->
  (x / y <? 0)%float = false.
Proof.
  rewrite !ltb_spec, div_spec.
  change (Prim2SF 0) with (S754_zero false).
  apply SFdiv_not_negative.
Qed.

Lemma rescale_not_negative (ps : list float) (total : float) :
  any_negative ps = false -> (0 <? total)%float = true ->
  any_negative (rescale ps total) = false.
Proof.
  intros Hps Htotal. unfold any_negative, rescale in *.
  induction ps as [| x ps IH]; simpl in *; [reflexivity |].
  apply orb_false_iff in Hps. destruct Hps as [Hx Hps].
  rewrite (div_not_negative x total Hx Htotal). simpl. now apply IH.
Qed.

(** X3: whatever [RoundDistribution] accepts, the two vectors it stores
    have 8 weights each and no negative weight, rescaled or not. *)
Theorem constructed_round_dist_valid (j p : list float) (rd : RoundDistribution)
  (Hinit : RoundDistribution_init j p = Ok rd) :
  List.length (joshua_ko_rounds rd) = 8%nat
  /\ List.length (paul_ko_rounds rd) = 8%nat
  /\ any_negative (joshua_ko_rounds rd) = false
  /\ any_negative (paul_ko_rounds rd) = false.
Proof.
  unfold RoundDistribution_init in Hinit.
  destruct (negb (Nat.eqb (List.length j) 8)) eqn:Hj; [discriminate |].
  destruct (negb (Nat.eqb (List.length p) 8)) eqn:Hp; [discriminate |].
  destruct (any_negative j) eqn:Hjn; [discriminate |].
  destruct (any_negative p) eqn:Hpn; [discriminate |].
  apply length_eqb_8 in Hj, Hp.
  inversion Hinit; subst rd; clear Hinit. simpl.
  destruct (0 <? Py.sum j)%float eqn:Hjs; destruct (0 <? Py.sum p)%float eqn:Hps;
    unfold rescale; rewrite ?length_map;
    repeat split; try assumption;
    apply rescale_not_negative; assumption.
Qed.

Lemma constructed_round_dist_valid_witness :
  RoundDistribution_init joshua_weights paul_weights = Ok default_round_dist
  /\ List.length (joshua_ko_rounds default_round_dist) = 8%nat
  /\ any_negative (paul_ko_rounds default_round_dist) = false.
Proof.
  split; [exact default_round_dist_constructed |].
  pose proof (constructed_round_dist_valid joshua_weights paul_weights
                default_round_dist default_round_dist_constructed)
    as [Hj [_ [_ Hp]]].
  split; assumption.
Defined.

(** ** sim/engine.py: construction *)

Section ConstructionFacts.

Context {G : Type} `{BitGenerator G}.

Lemma normalize_probs_keys (probs normalized : list (string * float)) :
  Odds.normalize_probs probs = Ok normalized ->
  map fst normalized = map fst probs.
Proof.
  unfold Odds.normalize_probs.
  destruct (Py.sum (map snd probs) =? 0)%float; [discriminate |].
  intros Hn. inversion Hn. rewrite map_map. reflexivity.
Qed.

Lemma compute_probabilities_keys (p : SimulationParams)
  (n : list (string * float)) (o : list string) (c : list float) :
  _compute_probabilities p = Ok (n, o, c) -> map fst n = o.
Proof.
  unfold _compute_probabilities.
  destruct (Odds.american_to_implied_prob _); cbn [rbind]; [| discriminate].
  destruct (Odds.american_to_implied_prob _); cbn [rbind]; [| discriminate].
  destruct (Odds.american_to_implied_prob _); cbn [rbind]; [| discriminate].
  destruct (Odds.american_to_implied_prob _); cbn [rbind]; [| discriminate].
  destruct (enable_draw p); cbn [rbind].
  - destruct (Odds.american_to_implied_prob _); cbn [rbind]; [| discriminate].
    destruct (Odds.normalize_probs _) as [nm |] eqn:Hn; cbn [rbind];
      [| discriminate].
    destruct (rmap _ _); cbn [rbind]; [| discriminate].
    intros Hok. inversion Hok; subst.
    apply normalize_probs_keys in Hn. exact Hn.
  - destruct (Odds.normalize_probs _) as [nm |] eqn:Hn; cbn [rbind];
      [| discriminate].
    destruct (rmap _ _); cbn [rbind]; [| discriminate].
    intros Hok. inversion Hok; subst.
    apply normalize_probs_keys in Hn. exact Hn.
Qed.

(** X4: a constructed engine stores the parameters it was given; its
    outcome list is the canonical one, with ["draw"] last exactly when the
    draw is enabled; its normalized probabilities have these outcomes as
    keys, in this order, and its cumulative table has one entry per
    outcome. *)
Theorem constructed_engine_shape (p : SimulationParams)
  (self : SimulationEngine G)
  (Hinit : SimulationEngine_init p = Ok self) :
  params self = p
  /\ outcomes self
     = (if enable_draw p
        then ["joshua_ko"; "joshua_decision"; "paul_ko"; "paul_decision";
              "draw"]
        else ["joshua_ko"; "joshua_decision"; "paul_ko"; "paul_decision"])
  /\ map fst (normalized_probs self) = outcomes self
  /\ List.length (cumulative_probs self) = List.length (outcomes self).
Proof.
  apply init_fields in Hinit. destruct Hinit as [Hp [_ Htab]].
  unfold tables in Htab.
  pose proof (compute_probabilities_shape _ _ _ _ Htab) as [Hlen Hout].
  pose proof (compute_probabilities_keys _ _ _ _ Htab) as Hkeys.
  repeat split; assumption.
Qed.

(** X5: the engine reads the four method prices, the draw switch and,
    when the draw is enabled, the draw price, and nothing else of the odds:
    two parameter sets that agree on these give engines with the same
    tables, whatever their moneylines, [total_rounds], round weights and
    seeds. *)
Theorem tables_ignore_moneylines_and_rounds (p p' : SimulationParams)
  (self self' : SimulationEngine G)
  (Hjk : joshua_ko (odds p') = joshua_ko (odds p))
  (Hjd : joshua_decision (odds p') = joshua_decision (odds p))
  (Hpk : paul_ko (odds p') = paul_ko (odds p))
  (Hpd : paul_decision (odds p') = paul_decision (odds p))
  (Hen : enable_draw p' = enable_draw p)
  (Hdr : enable_draw p = true -> draw (odds p') = draw (odds p))
  (Hinit : SimulationEngine_init p = Ok self)
  (Hinit' : SimulationEngine_init p' = Ok self') :
  tables self' = tables self.
Proof.
  apply init_fields in Hinit, Hinit'.
  destruct Hinit as [_ [_ Htab]]. destruct Hinit' as [_ [_ Htab']].
  assert (Heq : _compute_probabilities p' = _compute_probabilities p).
  { unfold _compute_probabilities. rewrite Hjk, Hjd, Hpk, Hpd, Hen.
    destruct (enable_draw p); [rewrite (Hdr eq_refl) |]; reflexivity. }
  congruence.
Qed.

(** X6: when every price the engine reads is 0, every implied probability
    is 0.0 and construction fails with the [ValueError] of
    [normalize_probs], provided the seed is accepted. *)
Theorem zero_prices_rejected (p : SimulationParams) (g : G)
  (Hseed : default_rng (seed p) = Ok g)
  (Hjk : joshua_ko (odds p) = 0)
  (Hjd : joshua_decision (odds p) = 0)
  (Hpk : paul_ko (odds p) = 0)
  (Hpd : paul_decision (odds p) = 0)
  (Hdr : enable_draw p = true -> draw (odds p) = 0) :
  SimulationEngine_init p
  = Raise (ValueError "Sum of probabilities cannot be zero").
Proof.
  unfold SimulationEngine_init. rewrite Hseed. simpl.
  unfold _compute_probabilities. rewrite Hjk, Hjd, Hpk, Hpd.
  destruct (enable_draw p); [rewrite (Hdr eq_refl) |]; reflexivity.
Qed.

End ConstructionFacts.

Lemma constructed_engine_shape_witness :
  SimulationEngine_init default_params = Ok default_engine
  /\ map fst (normalized_probs default_engine) = outcomes default_engine.
Proof.
  split; [exact default_engine_constructed |].
  exact (proj1 (proj2 (proj2 (constructed_engine_shape default_params
                                default_engine default_engine_constructed)))).
Defined.

Lemma tables_ignore_moneylines_and_rounds_witness :
  (SimulationEngine_init default_params = Ok default_engine
   /\ SimulationEngine_init twelve_round_params = Ok twelve_round_engine)
  /\ tables twelve_round_engine = tables default_engine.
Proof.
  assert (H12 : SimulationEngine_init twelve_round_params
                = Ok twelve_round_engine) by (vm_compute; reflexivity).
  split; [split; [exact default_engine_constructed | exact H12] |].
  refine (tables_ignore_moneylines_and_rounds default_params
            twelve_round_params default_engine twelve_round_engine
            eq_refl eq_refl eq_refl eq_refl eq_refl _
            default_engine_constructed H12).
  intros Hdraw. discriminate Hdraw.
Defined.

Lemma zero_prices_rejected_witness :
  default_rng (seed price_zero_params) = Ok 0%nat
  /\ SimulationEngine_init (G := nat) price_zero_params
     = Raise (ValueError "Sum of probabilities cannot be zero").
Proof.
  split; [reflexivity |].
  refine (zero_prices_rejected price_zero_params 0%nat
            eq_refl eq_refl eq_refl eq_refl eq_refl _).
  intros Hdraw. discriminate Hdraw.
Defined.

(** ** sim/engine.py: batches *)

Section BatchFacts.

Context {G : Type} `{BitGenerator G}.

Lemma advance_succ (n : nat) (g : G) :
  advance (S n) g = advance n (snd (next_double g)).
Proof.
  unfold advance. simpl. destruct (next_double g) as [u g1]. simpl.
  destruct (random_array n g1) as [us g2]. reflexivity.
Qed.

Lemma advance_add (n m : nat) (g : G) :
  advance (n + m) g = advance m (advance n g).
Proof.
  revert g. induction n as [| n IH]; intros g; [reflexivity |].
  rewrite Nat.add_succ_l, !advance_succ. apply IH.
Qed.

Lemma finishes_app (a b : list FightResult) :
  finishes (a ++ b) = (finishes a + finishes b)%nat.
Proof.
  unfold finishes. now rewrite filter_app, length_app.
Qed.

(** One iteration: the pair written, the outcome it comes from, and the
    draws it takes. *)
Lemma simulate_one_record (start_id i : Z) (idx : nat)
  (self self' : SimulationEngine G) (r : FightResult) :
  simulate_one start_id i idx self = (Ok r, self') ->
  record_shape r
  /\ (Forall names_a_fighter (outcomes self) -> winner r <> "Draw")
  /\ rng self' = advance (if is_finish r then 1 else 0) (rng self).
Proof.
  unfold simulate_one, bind, get_self, lift, Py.index.
  destruct (nth_error (outcomes self) idx) as [outcome |] eqn:Hnth;
    [| discriminate].
  assert (Hin : In outcome (outcomes self)) by (eapply nth_error_In; eassumption).
  destruct (String.eqb outcome "joshua_ko") eqn:E1;
    [| destruct (String.eqb outcome "joshua_decision") eqn:E2;
       [| destruct (String.eqb outcome "paul_ko") eqn:E3;
          [| destruct (String.eqb outcome "paul_decision") eqn:E4]]].
  all: rewrite ?sample_round_run; unfold ret; intros Hrun;
    inversion Hrun; subst r self'; clear Hrun.
  all: unfold record_shape, is_finish; simpl.
  all: split; [tauto |].
  all: split; [| try reflexivity; rewrite advance_succ; reflexivity].
  all: try (intros _; discriminate).
  intros Hall. rewrite Forall_forall in Hall. specialize (Hall _ Hin).
  apply String.eqb_neq in E1, E2, E3, E4.
  destruct Hall as [Ho | [Ho | [Ho | Ho]]]; contradiction.
Qed.

Lemma simulate_loop_shapes (idxs : list nat) :
  forall (start_id i : Z) (acc recs : list FightResult)
         (self self' : SimulationEngine G),
    simulate_loop start_id i idxs acc self = (Ok recs, self') ->
    exists new,
      recs = acc ++ new
      /\ Forall record_shape new
      /\ (Forall names_a_fighter (outcomes self) ->
          Forall (fun r => winner r <> "Draw") new)
      /\ rng self' = advance (finishes new) (rng self).
Proof.
  induction idxs as [| idx rest IH]; intros start_id i acc recs self self'; simpl.
  - unfold ret. intros Hrun. inversion Hrun; subst.
    exists []. rewrite app_nil_r. repeat split; constructor.
  - unfold bind.
    destruct (simulate_one start_id i idx self) as [[r |] self1] eqn:Hone;
      [| discriminate].
    pose proof (simulate_one_cases start_id i idx self) as Hcases.
    rewrite Hone in Hcases.
    destruct Hcases as [[r' [s' [Heq [_ [_ [_ Hsame]]]]]] | [Heq _]];
      [| discriminate].
    inversion Heq; subst r' s'; clear Heq.
    apply simulate_one_record in Hone. destruct Hone as [Hshape [Hdraw Hrng]].
    intros Hloop. apply IH in Hloop.
    destruct Hloop as [new [Hrecs [Hall [Hnodraw Hrng']]]].
    exists (r :: new). rewrite Hrecs, <- app_assoc. simpl.
    split; [reflexivity |]. split; [constructor; assumption |].
    split.
    + intros Hnames. constructor; [now apply Hdraw |].
      apply Hnodraw. now rewrite (same_outcomes _ _ Hsame).
    + rewrite Hrng', Hrng.
      change (r :: new) with ([r] ++ new). rewrite finishes_app, advance_add.
      unfold finishes. simpl. destruct (is_finish r); reflexivity.
Qed.

(** X7: a call [simulate_batch(count, start_id)] that returns gives
    exactly [count] records, whose ids are [start_id], [start_id + 1], ...
    in this order. *)
Theorem batch_ids_are_contiguous (self self' : SimulationEngine G)
  (count start_id : Z) (recs : list FightResult)
  (Hrun : simulate_batch count start_id self = (Ok recs, self')) :
  List.length recs = Z.to_nat count
  /\ map sim_id recs
     = map (fun k => start_id + Z.of_nat k) (seq 0 (Z.to_nat count)).
Proof.
  destruct (Z.lt_ge_cases count 0) as [Hneg | Hpos].
  - rewrite simulate_batch_negative in Hrun by exact Hneg. discriminate Hrun.
  - rewrite simulate_batch_run in Hrun by exact Hpos.
    apply simulate_loop_records in Hrun.
    destruct Hrun as [new [Hrecs [_ Hids]]]. simpl in Hrecs. subst new.
    rewrite length_map, random_array_length in Hids.
    assert (Hmap : map sim_id recs
                   = map (fun k => start_id + Z.of_nat k)
                         (seq 0 (Z.to_nat count))).
    { rewrite Hids. apply map_ext. intros k. lia. }
    split; [| exact Hmap].
    apply (f_equal (@List.length Z)) in Hmap.
    now rewrite !length_map, length_seq in Hmap.
Qed.

(** X8: every record [simulate_batch] returns carries one of the five
    pairs (Joshua or Paul, KO/TKO/DQ or Decision) and (Draw, Decision); in
    every state of an engine constructed with the draw disabled, no record
    has the winner Draw. *)
Theorem records_have_known_shape (p : SimulationParams)
  (self self' : SimulationEngine G) (count start_id : Z)
  (recs : list FightResult)
  (Hreach : reachable p self)
  (Hrun : simulate_batch count start_id self = (Ok recs, self')) :
  Forall record_shape recs
  /\ (enable_draw p = false -> Forall (fun r => winner r <> "Draw") recs).
Proof.
  destruct (Z.lt_ge_cases count 0) as [Hneg | Hpos].
  - rewrite simulate_batch_negative in Hrun by exact Hneg. discriminate Hrun.
  - rewrite simulate_batch_run in Hrun by exact Hpos.
    apply simulate_loop_shapes in Hrun.
    destruct Hrun as [new [Hrecs [Hall [Hnodraw _]]]]. simpl in Hrecs. subst new.
    split; [exact Hall |].
    intros Hen. apply Hnodraw. simpl outcomes.
    apply reachable_tables in Hreach. destruct Hreach as [Htab _].
    unfold tables in Htab. apply compute_probabilities_shape in Htab.
    destruct Htab as [_ Hout]. rewrite Hout, Hen.
    unfold names_a_fighter. repeat constructor; tauto.
Qed.

(** X9: [simulate_batch] changes nothing of the engine but the
    generator, whether it returns or raises: the stored parameters, the
    normalized probabilities, the outcome list and the cumulative table
    after the call are those before it. *)
Theorem batch_touches_only_generator (self : SimulationEngine G)
  (count start_id : Z) :
  params (snd (simulate_batch count start_id self)) = params self
  /\ normalized_probs (snd (simulate_batch count start_id self))
     = normalized_probs self
  /\ outcomes (snd (simulate_batch count start_id self)) = outcomes self
  /\ cumulative_probs (snd (simulate_batch count start_id self))
     = cumulative_probs self.
Proof.
  destruct (simulate_batch_same count start_id self) as [Hp Ht].
  unfold tables in Ht. inversion Ht. repeat split; assumption.
Qed.

(** X10: a call [simulate_batch(count, start_id)] that returns has taken
    exactly [count] uniforms for the outcomes and one more for each finish
    among its records: the generator it leaves is the one before the call
    advanced by [count + finishes] draws. *)
Theorem batch_draw_count (self self' : SimulationEngine G)
  (count start_id : Z) (recs : list FightResult)
  (Hrun : simulate_batch count start_id self = (Ok recs, self')) :
  rng self' = advance (Z.to_nat count + finishes recs) (rng self).
Proof.
  destruct (Z.lt_ge_cases count 0) as [Hneg | Hpos].
  - rewrite simulate_batch_negative in Hrun by exact Hneg. discriminate Hrun.
  - rewrite simulate_batch_run in Hrun by exact Hpos.
    apply simulate_loop_shapes in Hrun.
    destruct Hrun as [new [Hrecs [_ [_ Hrng]]]]. simpl in Hrecs. subst new.
    rewrite Hrng, advance_add. reflexivity.
Qed.

Lemma simulate_loop_raises (idxs : list nat) :
  forall (start_id i : Z) (acc : list FightResult)
         (self : SimulationEngine G) (e : exn),
    fst (simulate_loop start_id i idxs acc self) = Raise e ->
    e = IndexError "list index out of range"
    /\ Exists (fun idx => (List.length (outcomes self) <= idx)%nat) idxs.
Proof.
  induction idxs as [| idx rest IH]; intros start_id i acc self e; simpl.
  - unfold ret. discriminate.
  - unfold bind.
    destruct (simulate_one_cases start_id i idx self)
      as [[r [self1 [Hone [_ [_ [_ Hsame]]]]]] | [Hone Hlen]]; rewrite Hone.
    + intros Hrun. apply IH in Hrun. destruct Hrun as [He Hex].
      split; [exact He |]. right.
      now rewrite <- (same_outcomes _ _ Hsame).
    + simpl. intros Hrun. inversion Hrun. split; [reflexivity |].
      left. exact Hlen.
Qed.

(** X11: with a non-negative count the only exception [simulate_batch]
    raises is the [IndexError] of the outcome lookup, and it raises it only
    when some drawn uniform lies above the whole cumulative table. *)
Theorem batch_raises_only_index_error (self : SimulationEngine G)
  (count start_id : Z) (e : exn)
  (Hcount : 0 <= count)
  (Hrun : fst (simulate_batch count start_id self) = Raise e) :
  e = IndexError "list index out of range"
  /\ Exists (fun u => (List.length (outcomes self)
                       <= Np.searchsorted (cumulative_probs self) u)%nat)
            (fst (random_array (Z.to_nat count) (rng self))).
Proof.
  rewrite simulate_batch_run in Hrun by exact Hcount.
  apply simulate_loop_raises in Hrun. destruct Hrun as [He Hex].
  split; [exact He |].
  apply Exists_exists in Hex. destruct Hex as [idx [Hin Hle]].
  apply in_map_iff in Hin. destruct Hin as [u [Hu Hin]].
  apply Exists_exists. exists u. subst idx. split; [exact Hin | exact Hle].
Qed.

(** X12: on weights none of which is negative, a uniform of exactly 0.0
    makes [_sample_round] return round 1, also when round 1 has weight 0. *)
Theorem zero_draw_gives_round_one (round_probs : list float)
  (self : SimulationEngine G)
  (Hnonneg : any_negative round_probs = false)
  (Hdraw : fst (next_double (rng self)) = 0%float) :
  fst (_sample_round round_probs self) = Ok 1.
Proof.
  rewrite sample_round_run, Hdraw. simpl fst.
  destruct round_probs as [| w ws]; [reflexivity |].
  simpl in Hnonneg. apply orb_false_iff in Hnonneg.
  destruct Hnonneg as [Hw _]. simpl. rewrite Hw. reflexivity.
Qed.

End BatchFacts.

Example sample_records_simulated :
  simulate_batch 3 0 default_engine
  = (Ok sample_records, set_rng 5%nat default_engine).
Proof. vm_compute. reflexivity. Qed.

Example drifted_engine_constructed :
  SimulationEngine_init drifted_params = Ok drifted_engine.
Proof. vm_compute. reflexivity. Qed.

Lemma batch_ids_are_contiguous_witness :
  simulate_batch 3 0 default_engine
  = (Ok sample_records, set_rng 5%nat default_engine)
  /\ List.length sample_records = 3%nat
  /\ map sim_id sample_records = [0; 1; 2].
Proof.
  split; [exact sample_records_simulated |].
  exact (batch_ids_are_contiguous default_engine (set_rng 5%nat default_engine)
           3 0 sample_records sample_records_simulated).
Defined.

Lemma records_have_known_shape_witness :
  (reachable default_params default_engine
   /\ simulate_batch 3 0 default_engine
      = (Ok sample_records, set_rng 5%nat default_engine)
   /\ enable_draw default_params = false)
  /\ Forall (fun r => winner r <> "Draw") sample_records.
Proof.
  assert (Hreach : reachable default_params default_engine)
    by (apply reachable_init; exact default_engine_constructed).
  split; [split; [exact Hreach | split;
                  [exact sample_records_simulated | reflexivity]] |].
  exact (proj2 (records_have_known_shape default_params default_engine
                  (set_rng 5%nat default_engine) 3 0 sample_records
                  Hreach sample_records_simulated) eq_refl).
Defined.

Lemma batch_draw_count_witness :
  simulate_batch 3 0 default_engine
  = (Ok sample_records, set_rng 5%nat default_engine)
  /\ rng (set_rng 5%nat default_engine)
     = advance (3 + finishes sample_records) (rng default_engine).
Proof.
  split; [exact sample_records_simulated |].
  exact (batch_draw_count default_engine (set_rng 5%nat default_engine)
           3 0 sample_records sample_records_simulated).
Defined.

Lemma batch_raises_only_index_error_witness :
  (0 <= 1
   /\ fst (simulate_batch 1 0 drifted_engine)
      = Raise (IndexError "list index out of range"))
  /\ Exists (fun u => (List.length (outcomes drifted_engine)
                       <= Np.searchsorted (cumulative_probs drifted_engine) u)%nat)
            (fst (random_array (Z.to_nat 1) (rng drifted_engine))).
Proof.
  assert (Hcount : 0 <= 1) by lia.
  assert (Hrun : fst (simulate_batch 1 0 drifted_engine)
                 = Raise (IndexError "list index out of range"))
    by (vm_compute; reflexivity).
  split; [split; assumption |].
  exact (proj2 (batch_raises_only_index_error drifted_engine 1 0
                  (IndexError "list index out of range") Hcount Hrun)).
Defined.

Lemma zero_draw_gives_round_one_witness :
  (any_negative [0; 0.5; 0.5; 0; 0; 0; 0; 0]%float = false
   /\ fst (next_double (rng (set_rng 8%nat default_engine))) = 0%float)
  /\ fst (_sample_round [0; 0.5; 0.5; 0; 0; 0; 0; 0]%float
            (set_rng 8%nat default_engine)) = Ok 1.
Proof.
  split; [split; reflexivity |].
  exact (zero_draw_gives_round_one [0; 0.5; 0.5; 0; 0; 0; 0; 0]%float
           (set_rng 8%nat default_engine) eq_refl eq_refl).
Defined.

(** ** sim/metrics.py *)

Lemma filter_filter {A : Type} (f g : A -> bool) (l : list A) :
  filter f (filter g l) = filter (fun x => g x && f x) l.
Proof.
  induction l as [| x l IH]; simpl; [reflexivity |].
  destruct (g x); simpl; [destruct (f x) |]; now rewrite IH.
Qed.

Lemma increment_in_range (l : list Z) (i : nat) :
  (i < List.length l)%nat ->
  exists l',
    Metrics.increment l i = Ok l'
    /\ List.length l' = List.length l
    /\ Metrics.sum_counts l' = Metrics.sum_counts l + 1.
Proof.
  revert i. induction l as [| x l IH]; intros i Hi; simpl in Hi; [lia |].
  destruct i as [| i]; simpl.
  - eexists. split; [reflexivity |]. split; [reflexivity |].
    unfold Metrics.sum_counts. simpl. lia.
  - destruct (IH i) as [l' [Hinc [Hlen Hsum]]]; [lia |].
    rewrite Hinc. simpl. eexists. split; [reflexivity |].
    split; [simpl; now rewrite Hlen |].
    unfold Metrics.sum_counts in *. simpl. lia.
Qed.

(** One row of [ko_df]: the step returns, keeps both lists at 8 entries,
    and adds one to the list of the winner when the round is in 1..8. *)
Lemma ko_round_step_counts (acc : Metrics.KoRounds) (row : FightResult) :
  List.length (Metrics.Joshua acc) = 8%nat ->
  List.length (Metrics.Paul acc) = 8%nat ->
  is_finish row = true ->
  exists acc',
    Metrics.ko_round_step acc row = Ok acc'
    /\ List.length (Metrics.Joshua acc') = 8%nat
    /\ List.length (Metrics.Paul acc') = 8%nat
    /\ Metrics.sum_counts (Metrics.Joshua acc')
       = Metrics.sum_counts (Metrics.Joshua acc)
         + (if Metrics.counted_finish "Joshua" row then 1 else 0)
    /\ Metrics.sum_counts (Metrics.Paul acc')
       = Metrics.sum_counts (Metrics.Paul acc)
         + (if Metrics.counted_finish "Paul" row then 1 else 0).
Proof.
  intros Hj Hp Hfin. unfold Metrics.ko_round_step, Metrics.counted_finish.
  rewrite Hfin. simpl andb.
  assert (Hrange : (0 <=? round row - 1) && (round row - 1 <? 8)
                   = (1 <=? round row) && (round row <=? 8)).
  { destruct (Z.leb_spec 0 (round row - 1)), (Z.ltb_spec (round row - 1) 8),
      (Z.leb_spec 1 (round row)), (Z.leb_spec (round row) 8);
      simpl; try reflexivity; lia. }
  rewrite Hrange. clear Hrange.
  destruct (1 <=? round row) eqn:H1; destruct (round row <=? 8) eqn:H8;
    rewrite ?andb_false_r; simpl andb.
  2-4: eexists; split; [reflexivity |]; repeat split; try lia; assumption.
  apply Z.leb_le in H1, H8.
  destruct (String.eqb (winner row) "Joshua") eqn:EJ.
  - apply String.eqb_eq in EJ.
    destruct (increment_in_range (Metrics.Joshua acc)
                (Z.to_nat (round row - 1))) as [l' [Hinc [Hlen Hsum]]];
      [lia |].
    rewrite Hinc. simpl. rewrite EJ. simpl.
    eexists. split; [reflexivity |]. simpl.
    repeat split; try lia; congruence.
  - destruct (String.eqb (winner row) "Paul") eqn:EP.
    + destruct (increment_in_range (Metrics.Paul acc)
                  (Z.to_nat (round row - 1))) as [l' [Hinc [Hlen Hsum]]];
        [lia |].
      rewrite Hinc. simpl.
      eexists. split; [reflexivity |]. simpl.
      repeat split; try lia; congruence.
    + eexists. split; [reflexivity |]. simpl.
      repeat split; try lia; assumption.
Qed.

Lemma ko_round_loop_counts (rows : list FightResult) :
  forall acc : Metrics.KoRounds,
    List.length (Metrics.Joshua acc) = 8%nat ->
    List.length (Metrics.Paul acc) = 8%nat ->
    Forall (fun r => is_finish r = true) rows ->
    exists acc',
      Metrics.ko_round_loop rows acc = Ok acc'
      /\ List.length (Metrics.Joshua acc') = 8%nat
      /\ List.length (Metrics.Paul acc') = 8%nat
      /\ Metrics.sum_counts (Metrics.Joshua acc')
         = Metrics.sum_counts (Metrics.Joshua acc)
           + Z.of_nat (List.length
                         (filter (Metrics.counted_finish "Joshua") rows))
      /\ Metrics.sum_counts (Metrics.Paul acc')
         = Metrics.sum_counts (Metrics.Paul acc)
           + Z.of_nat (List.length
                         (filter (Metrics.counted_finish "Paul") rows)).
Proof.
  induction rows as [| row rows IH]; intros acc Hj Hp Hall; simpl.
  - exists acc. repeat split; try assumption; lia.
  - inversion Hall as [| ? ? Hfin Hrest]; subst.
    destruct (ko_round_step_counts acc row Hj Hp Hfin)
      as [acc1 [Hstep [Hj1 [Hp1 [Hsj Hsp]]]]].
    rewrite Hstep. simpl.
    destruct (IH acc1 Hj1 Hp1 Hrest) as [acc' [Hloop [Hj' [Hp' [Hsj' Hsp']]]]].
    exists acc'. split; [exact Hloop |].
    split; [exact Hj' |]. split; [exact Hp' |].
    rewrite Hsj', Hsp', Hsj, Hsp.
    destruct (Metrics.counted_finish "Joshua" row),
      (Metrics.counted_finish "Paul" row); simpl List.length; split; lia.
Qed.

Lemma filter_finish_counted (w : string) (rs : list FightResult) :
  filter (Metrics.counted_finish w) (filter is_finish rs)
  = filter (Metrics.counted_finish w) rs.
Proof.
  rewrite filter_filter. apply filter_ext. intros r.
  unfold Metrics.counted_finish. destruct (is_finish r); reflexivity.
Qed.

(** The loop of [get_ko_round_distribution] over the finishes of [rs]. *)
Lemma ko_round_loop_run (rs : list FightResult) :
  exists d,
    Metrics.ko_round_loop (filter is_finish rs)
      {| Metrics.Joshua := repeat 0 8; Metrics.Paul := repeat 0 8 |} = Ok d
    /\ List.length (Metrics.Joshua d) = 8%nat
    /\ List.length (Metrics.Paul d) = 8%nat
    /\ Metrics.sum_counts (Metrics.Joshua d)
       = Z.of_nat (List.length (filter (Metrics.counted_finish "Joshua") rs))
    /\ Metrics.sum_counts (Metrics.Paul d)
       = Z.of_nat (List.length (filter (Metrics.counted_finish "Paul") rs)).
Proof.
  destruct (ko_round_loop_counts (filter is_finish rs)
              {| Metrics.Joshua := repeat 0 8; Metrics.Paul := repeat 0 8 |}
              eq_refl eq_refl) as [d [Hloop [Hj [Hp [Hsj Hsp]]]]].
  { apply Forall_forall. intros x Hx. apply filter_In in Hx. tauto. }
  exists d. split; [exact Hloop |].
  rewrite !filter_finish_counted in Hsj, Hsp.
  repeat split; assumption.
Qed.

(** X13: [get_ko_round_distribution] never raises, whatever the rounds
    of the records; it returns two lists of 8 counts, and the counts of a
    fighter add up to the number of finishes this fighter won in a round of
    1..8 (finishes with any other round are left out). *)
Theorem ko_round_distribution_counts (self : Metrics.SimulationMetrics) :
  exists d,
    Metrics.get_ko_round_distribution self = Ok d
    /\ List.length (Metrics.Joshua d) = 8%nat
    /\ List.length (Metrics.Paul d) = 8%nat
    /\ Metrics.sum_counts (Metrics.Joshua d)
       = Z.of_nat (List.length (filter (Metrics.counted_finish "Joshua")
                                       (Metrics.results self)))
    /\ Metrics.sum_counts (Metrics.Paul d)
       = Z.of_nat (List.length (filter (Metrics.counted_finish "Paul")
                                       (Metrics.results self))).
Proof.
  unfold Metrics.get_ko_round_distribution.
  destruct (Metrics.results self) as [| r rs] eqn:Hres.
  - eexists. split; [reflexivity |]. repeat split; reflexivity.
  - destruct (ko_round_loop_run (r :: rs)) as [d Hd].
    exists d. exact Hd.
Qed.




Lemma count_label_cons (label x : string) (xs : list string) :
  Metrics.count_label label (x :: xs)
  = (if string_dec x label then 1 else 0) + Metrics.count_label label xs.
Proof.
  unfold Metrics.count_label. simpl.
  destruct (string_dec x label); lia.
Qed.

Lemma outcome_counts_total (rs : list FightResult) :
  Forall record_shape rs ->
  Metrics.count_label "Joshua KO/TKO/DQ" (map Metrics.outcome_label rs)
  + Metrics.count_label "Joshua Decision" (map Metrics.outcome_label rs)
  + Metrics.count_label "Paul KO/TKO/DQ" (map Metrics.outcome_label rs)
  + Metrics.count_label "Paul Decision" (map Metrics.outcome_label rs)
  + Metrics.count_label "Draw" (map Metrics.outcome_label rs)
  = Z.of_nat (List.length rs).
Proof.
  induction 1 as [| r rs Hr _ IH]; [reflexivity |].
  cbn [map List.length]. rewrite !count_label_cons, Nat2Z.inj_succ, <- IH.
  assert (Hlabel : exists label,
            Metrics.outcome_label r = label
            /\ (label = "Joshua KO/TKO/DQ" \/ label = "Joshua Decision"
                \/ label = "Paul KO/TKO/DQ" \/ label = "Paul Decision"
                \/ label = "Draw")).
  { unfold Metrics.outcome_label.
    destruct Hr as [[Hw Hm] | [[Hw Hm] | [[Hw Hm] | [[Hw Hm] | [Hw Hm]]]]];
      rewrite Hw, ?Hm; eexists; (split; [reflexivity |]); simpl; tauto. }
  destruct Hlabel as [label [Hlabel Hcases]]. rewrite Hlabel.
  destruct Hcases as [-> | [-> | [-> | [-> | ->]]]];
    repeat match goal with
           | |- context [string_dec ?a ?b] =>
               destruct (string_dec a b); try discriminate
           end; try congruence; lia.
Qed.

(** X15: when every result carries one of the five (winner, method)
    pairs, as the records of [simulate_batch] do, the five counts of
    [get_outcome_distribution] add up to the number of results: every
    result is counted once. *)
Theorem outcome_distribution_total (self : Metrics.SimulationMetrics)
  (Hshape : Forall record_shape (Metrics.results self)) :
  map fst (Metrics.get_outcome_distribution self)
  = ["Joshua KO/TKO/DQ"; "Joshua Decision"; "Paul KO/TKO/DQ";
     "Paul Decision"; "Draw"]
  /\ Metrics.sum_counts (map snd (Metrics.get_outcome_distribution self))
     = Z.of_nat (List.length (Metrics.results self)).
Proof.
  unfold Metrics.get_outcome_distribution.
  destruct (Metrics.results self) as [| r rs] eqn:Hres;
    [split; reflexivity |].
  split; [reflexivity |].
  rewrite <- (outcome_counts_total (r :: rs) Hshape).
  unfold Metrics.sum_counts. cbn [map snd fold_right]. lia.
Qed.

Lemma outcome_distribution_total_witness :
  Forall record_shape sample_records
  /\ Metrics.sum_counts
       (map snd (Metrics.get_outcome_distribution
                   (Metrics.add_results sample_records
                      Metrics.SimulationMetrics_init)))
     = 3.
Proof.
  assert (Hshape : Forall record_shape sample_records).
  { apply Forall_forall. intros r Hr. simpl in Hr. unfold record_shape.
    destruct Hr as [<- | [<- | [<- | []]]]; simpl; tauto. }
  split; [exact Hshape |].
  exact (proj2 (outcome_distribution_total
                  (Metrics.add_results sample_records
                     Metrics.SimulationMetrics_init) Hshape)).
Defined.

Lemma percentage_nonzero (count total : Z) (msg : string) :
  total <> 0 -> Metrics.percentage count total <> Raise (ZeroDivisionError msg).
Proof.
  intros Ht. unfold Metrics.percentage.
  pose proof (int_truediv_nonzero count total msg Ht) as Hdiv.
  destruct (Py.int_truediv count total) as [q | e]; simpl; [discriminate |].
  exact Hdiv.
Qed.

Lemma summary_total_sims (self : Metrics.SimulationMetrics)
  (stats : Metrics.SummaryStats) :
  Metrics.get_summary_stats self = Ok stats ->
  Metrics.total_sims stats = Z.of_nat (List.length (Metrics.results self)).
Proof.
  unfold Metrics.get_summary_stats.
  destruct (Metrics.results self) as [| r rs].
  - intros Hs. inversion Hs. reflexivity.
  - repeat match goal with
           | |- rbind ?x _ = _ -> _ =>
               destruct x; cbn [rbind]; [| discriminate]
           end.
    intros Hs. inversion Hs. reflexivity.
Qed.

(** X16: [get_summary_stats] never divides by zero: with no results it
    returns the all-zero summary without computing a ratio, and with
    results the divisor is their number.  When it returns, [total_sims] is
    the number of results. *)
Theorem summary_never_divides_by_zero (self : Metrics.SimulationMetrics)
  (msg : string) :
  Metrics.get_summary_stats self <> Raise (ZeroDivisionError msg)
  /\ (Metrics.results self = [] ->
      Metrics.get_summary_stats self
      = Ok {| Metrics.total_sims := 0;
              Metrics.joshua_win_pct := 0; Metrics.paul_win_pct := 0;
              Metrics.draw_pct := 0; Metrics.joshua_ko_pct := 0;
              Metrics.joshua_decision_pct := 0; Metrics.paul_ko_pct := 0;
              Metrics.paul_decision_pct := 0 |})
  /\ (forall stats,
        Metrics.get_summary_stats self = Ok stats ->
        Metrics.total_sims stats
        = Z.of_nat (List.length (Metrics.results self))).
Proof.
  split; [| split; [| apply summary_total_sims]].
  - unfold Metrics.get_summary_stats.
    destruct (Metrics.results self) as [| r rs]; [discriminate |].
    assert (Htotal : Z.of_nat (List.length (r :: rs)) <> 0) by (simpl; lia).
    cbv zeta.
    repeat match goal with
           | |- rbind (Metrics.percentage ?c ?t) _ <> _ =>
               let E := fresh "E" in
               destruct (Metrics.percentage c t) eqn:E; cbn [rbind];
               [| intros Hraise; inversion Hraise; subst;
                  exact (percentage_nonzero c t msg Htotal E)]
           end.
    discriminate.
  - unfold Metrics.get_summary_stats. intros Hres. rewrite Hres. reflexivity.
Qed.

(** X17: when [record_history(tick)] returns, the results are untouched
    and the history has grown by exactly one entry, which carries the tick
    and the number of results at the time of the call. *)
Theorem record_history_appends_snapshot (t : Z)
  (self self' : Metrics.SimulationMetrics)
  (Hrun : Metrics.record_history t self = Ok self') :
  Metrics.results self' = Metrics.results self
  /\ exists entry,
       Metrics.history self' = Metrics.history self ++ [entry]
       /\ Metrics.tick entry = t
       /\ Metrics.history_total_sims entry
          = Z.of_nat (List.length (Metrics.results self)).
Proof.
  unfold Metrics.record_history in Hrun.
  destruct (Metrics.get_summary_stats self) as [stats |] eqn:Hstats;
    [| discriminate Hrun].
  cbn [rbind] in Hrun. inversion Hrun; subst self'; clear Hrun. simpl.
  split; [reflexivity |].
  eexists. split; [reflexivity |]. simpl.
  split; [reflexivity | now apply summary_total_sims].
Qed.

Lemma record_history_appends_snapshot_witness :
  exists self',
    Metrics.record_history 10
      (Metrics.add_results sample_records Metrics.SimulationMetrics_init)
    = Ok self'
    /\ Metrics.results self' = sample_records.
Proof.
  eexists. split; [vm_compute; reflexivity |].
  refine (proj1 (record_history_appends_snapshot 10
                   (Metrics.add_results sample_records
                      Metrics.SimulationMetrics_init) _ _)).
  vm_compute. reflexivity.
Defined.

Lemma summary_never_divides_by_zero_witness :
  Metrics.results Metrics.SimulationMetrics_init = []
  /\ Metrics.get_summary_stats Metrics.SimulationMetrics_init
     = Ok {| Metrics.total_sims := 0;
             Metrics.joshua_win_pct := 0; Metrics.paul_win_pct := 0;
             Metrics.draw_pct := 0; Metrics.joshua_ko_pct := 0;
             Metrics.joshua_decision_pct := 0; Metrics.paul_ko_pct := 0;
             Metrics.paul_decision_pct := 0 |}.
Proof.
  split; [reflexivity |].
  exact (proj1 (proj2 (summary_never_divides_by_zero
                         Metrics.SimulationMetrics_init ""))
           eq_refl).
Defined.

(** The five counts of [get_outcome_distribution], with or without
    results. *)
Lemma outcome_distribution_values (self : Metrics.SimulationMetrics) :
  map snd (Metrics.get_outcome_distribution self)
  = map (fun label =>
           Metrics.count_label label
             (map Metrics.outcome_label (Metrics.results self)))
        ["Joshua KO/TKO/DQ"; "Joshua Decision"; "Paul KO/TKO/DQ";
         "Paul Decision"; "Draw"].
Proof.
  unfold Metrics.get_outcome_distribution.
  destruct (Metrics.results self); reflexivity.
Qed.

Lemma count_label_app (label : string) (xs ys : list string) :
  Metrics.count_label label (xs ++ ys)
  = Metrics.count_label label xs + Metrics.count_label label ys.
Proof.
  unfold Metrics.count_label. rewrite count_occ_app. lia.
Qed.

(** X18: results added in two calls of [add_results] are counted
    together: each of the five counts of [get_outcome_distribution] after
    adding [a] and then [b] is the sum of the counts for [a] alone and for
    [b] alone, an empty batch contributing zeros. *)
Theorem outcome_distribution_additive (a b : list FightResult) :
  map snd (Metrics.get_outcome_distribution
             (Metrics.add_results b
                (Metrics.add_results a Metrics.SimulationMetrics_init)))
  = map (fun xy => fst xy + snd xy)
        (combine
           (map snd (Metrics.get_outcome_distribution
                       (Metrics.add_results a Metrics.SimulationMetrics_init)))
           (map snd (Metrics.get_outcome_distribution
                       (Metrics.add_results b Metrics.SimulationMetrics_init)))).
Proof.
  rewrite !outcome_distribution_values. simpl Metrics.results.
  rewrite map_app. simpl. rewrite !count_label_app. reflexivity.
Qed.
